(** * ai_translate.py: a shallow embedding of the translation pipeline

    The script [src/l10n/ai_translate.py] is one procedure, [main], that
    reads its configuration from the environment, loads a gettext catalog
    with polib, sends every msgid to a chat-completion endpoint, writes
    the answers back into the entries, refreshes the header and saves.

    The embedding keeps that shape.  Everything the script gets from
    outside (environment variables, polib, the OpenAI client, the json
    module, the clock, the file system) is a field of one record,
    [World]; [main] is a function of the world and of the parsed
    command-line arguments, and returns the list of effects it performed
    together with how the process ended. *)

From stdpp Require Import base option list gmap strings pretty fin_maps.

(** String literals are read as strings; [++] stays list append and
    strings are joined with stdpp's [+:+]. *)
Open Scope string_scope.
Open Scope list_scope.

(** ** Python values

    [json.loads] returns an arbitrary Python value, and the script stores
    whatever it finds in the response into [entry.msgstr] without looking
    at its type, so values are modelled with their dynamic type. *)

#[warnings="-register-all"]
Inductive pyval : Type :=
| PyNone
| PyBool (b : bool)
| PyInt (n : Z)
| PyFloat (literal : string)
| PyStr (s : string)
| PyList (items : list pyval)
| PyDict (fields : gmap string pyval).

Definition is_str (v : pyval) : bool :=
  match v with PyStr _ => true | _ => false end.

(** [isinstance(v, list)], returning the list when it is one. *)
Definition as_list (v : pyval) : option (list pyval) :=
  match v with PyList l => Some l | _ => None end.

(** ** Exceptions

    Only the classes the script's handlers distinguish are kept apart.
    [JSONDecodeError] is a subclass of [ValueError]; [FileNotFoundError]
    is a subclass of [OSError] and is merged into it.  [SystemExit] is not
    an [Exception] and is modelled separately, by [SysExit] below. *)

Inductive ExnClass : Type :=
| JSONDecodeError | ValueError | TypeError | APIError | OSError | OtherException.

Record PyExn : Type := mkExn { exn_class : ExnClass; exn_str : string }.

(** [except (json.JSONDecodeError, ValueError)] *)
Definition is_ValueError (e : PyExn) : bool :=
  match exn_class e with JSONDecodeError | ValueError => true | _ => false end.

(** [except APIError] *)
Definition is_APIError (e : PyExn) : bool :=
  match exn_class e with APIError => true | _ => false end.

(** [except (FileNotFoundError, OSError)] *)
Definition is_OSError (e : PyExn) : bool :=
  match exn_class e with OSError => true | _ => false end.

(** The three places where the interpreter itself raises a [TypeError];
    the wording of the message is CPython's and is left to the world. *)
Inductive InterpError : Type :=
| NotIterable (v : pyval)       (* 'translations' in v *)
| NotSubscriptable (v : pyval)  (* v['translations'] *)
| LoadsNotText.                 (* json.loads(None) *)

(** ** Catalog entries and catalogs (polib's POEntry and POFile)

    [msgstr] is a string when polib loads the entry; it is a Python value
    here because step 4 stores into it whatever the response holds.
    [flags] is a Python list of the flags in file order: the script uses
    it through [in] and [list.remove], and a flag written twice in the
    file is in the list twice. *)

Record POEntry : Type := mkEntry {
  msgid : string;
  msgstr : pyval;
  msgctxt : option string;
  msgid_plural : string;
  comment : string;
  tcomment : string;
  occurrences : list (string * string);
  flags : list string;
  obsolete : bool
}.

Record Catalog : Type := mkCatalog {
  cat_entries : list POEntry;
  cat_metadata : gmap string string
}.

(** ** The request sent to [client.chat.completions.create]

    The sampling temperature is the constant 0.2 and the response format
    is always [{"type": "json_object"}]; both are fixed by the script. *)

Record ChatRequest : Type := mkRequest {
  req_api_key : string;
  req_base_url : option string;
  req_model : string;
  req_system : string;
  req_user : string;
  req_response_format : string
}.

(** ** Effects *)

Inductive Event : Type :=
| Stdout (line : string)
| Stderr (line : string)
| ReadCatalog (path : string)               (* polib.pofile(path) *)
| NewClient (key : string) (url : option string)   (* OpenAI(...) *)
| ChatCompletion (req : ChatRequest)        (* ...completions.create *)
| Truncate (path : string)                  (* open(path, 'w').close() *)
| SaveCatalog (path : string) (po : Catalog). (* po_file.save(path) *)

(** How a computation stops early: [sys.exit(n)] or a raised exception. *)
Inductive Stop : Type :=
| SysExit (status : nat)
| Raised (e : PyExn).

(** A run is the trace of effects performed and either a result or the
    reason the computation stopped. *)
Definition Run (A : Type) : Type := list Event * (Stop + A).

#[global] Instance run_ret : MRet Run := λ A a, ([], inr a).

#[global] Instance run_bind : MBind Run := λ A B k m,
  match m with
  | (t, inl s) => (t, inl s)
  | (t, inr a) => let '(t', r) := k a in (t ++ t', r)
  end.

Definition emit (e : Event) : Run () := ([e], inr ()).
Definition print (s : string) : Run () := emit (Stdout s).
Definition eprint (s : string) : Run () := emit (Stderr s).
Definition sys_exit {A} (n : nat) : Run A := ([], inl (SysExit n)).
Definition raise {A} (e : PyExn) : Run A := ([], inl (Raised e)).

(** The result of a library call: an exception or a value. *)
Definition lift {A} (r : PyExn + A) : Run A :=
  match r with inl e => raise e | inr a => mret a end.

(** A library call made for its effect only. *)
Definition check (r : option PyExn) : Run () :=
  match r with Some e => raise e | None => mret () end.

(** [try: body / except ...: handler].  The handler function returns
    [None] for an exception no [except] clause matches, which then keeps
    propagating.  [SystemExit] passes through every handler of the script
    (they catch [Exception] at most). *)
Definition try_except {A} (body : Run A) (handler : PyExn → option (Run A)) : Run A :=
  match body with
  | (t, inl (Raised e)) =>
      match handler e with
      | Some (t', r) => (t ++ t', r)
      | None => body
      end
  | _ => body
  end.

Definition trace {A} (r : Run A) : list Event := r.1.

(** The calls of [po_file.save] in a trace: path and catalog. *)
Definition saved_files (t : list Event) : list (string * Catalog) :=
  omap (λ ev, match ev with SaveCatalog p c => Some (p, c) | _ => None end) t.

(** The status the operating system sees: the argument of [sys.exit],
    1 for an exception nobody caught, 0 when [main] returns. *)
Definition exit_status {A} (r : Run A) : nat :=
  match r.2 with
  | inl (SysExit n) => n
  | inl (Raised _) => 1
  | inr _ => 0
  end.

(** ** The world: everything [main] calls and does not define *)

Record World : Type := mkWorld {
  getenv : string → option string;                 (* os.getenv *)
  pofile : string → PyExn + Catalog;               (* polib.pofile *)
  new_client : string → option string → option PyExn;  (* OpenAI(...) *)
  create : ChatRequest → PyExn + option string;    (* message.content *)
  json_dumps : list string → string;               (* json.dumps *)
  json_loads : string → PyExn + pyval;             (* json.loads *)
  interp_str : InterpError → string;               (* str(TypeError) *)
  open_w : string → option PyExn;                  (* open(path, 'w') *)
  now_str : PyExn + string;                        (* datetime...strftime *)
  save : string → Catalog → option PyExn           (* POFile.save *)
}.

Record Args : Type := mkArgs {
  input_file : string;
  output_file : string;
  language : string
}.

(** ** Module constants *)

Definition DEFAULT_MODEL : string := "gpt-5-nano".

(** [SYSTEM_PROMPT_TEMPLATE] has a single replacement field,
    [{language_name}], and no other brace; [str.format] puts the argument
    between the text before the field and the text after it. *)
Definition SYSTEM_PROMPT_before : string := "
You are an expert translator specializing in software localization for the Gettext .po file format.
Your task is to translate a list of source strings into ".

Definition SYSTEM_PROMPT_after : string := ".
- The user will provide a JSON array of source strings (msgid).
- You MUST return a JSON object with a single key named 'translations' which contains an array of the translated strings.
- The order of the translated strings in the output array must exactly match the order of the source strings in the input array.
- The translation should be accurate, context-aware, and suitable for a user interface.
- Keep the tone natural for the target language.
- Do not return anything other than a valid JSON object with the specified structure.
".

Definition SYSTEM_PROMPT_TEMPLATE_format (language_name : string) : string :=
  SYSTEM_PROMPT_before +:+ language_name +:+ SYSTEM_PROMPT_after.

(** The items of the [LANG_MAP] literal, in source order. *)
Definition LANG_MAP_items : list (string * string) := [
  ("ar", "Arabic");
  ("bg_BG", "Bulgarian");
  ("bn", "Bengali");
  ("ca", "Catalan");
  ("cs", "Czech");
  ("da", "Danish");
  ("de", "German");
  ("el", "Greek");
  ("en", "English");
  ("en_GB", "English (United Kingdom)");
  ("eo", "Esperanto");
  ("es", "Spanish");
  ("eu", "Basque");
  ("fa", "Persian");
  ("fi", "Finnish");
  ("fr", "French");
  ("gl", "Galician");
  ("he", "Hebrew");
  ("hi", "Hindi");
  ("hr", "Croatian");
  ("hu", "Hungarian");
  ("it_IT", "Italian");
  ("ja", "Japanese");
  ("ka", "Georgian");
  ("kk", "Kazakh");
  ("ko_KR", "Korean");
  ("lt_LT", "Lithuanian");
  ("lv", "Latvian");
  ("nb_NO", "Norwegian Bokm√•l");
  ("nl_NL", "Dutch");
  ("pl", "Polish");
  ("pl_PL", "Polish (Poland)");
  ("pt_PT", "Portuguese");
  ("pt_BR", "Portuguese (Brazil)");
  ("ro", "Romanian");
  ("ro_MD", "Romanian (Moldova)");
  ("ru", "Russian");
  ("sk", "Slovak");
  ("sr", "Serbian");
  ("sv", "Swedish");
  ("th", "Thai");
  ("tr", "Turkish");
  ("uk", "Ukrainian");
  ("vi", "Vietnamese");
  ("vi_VN", "Vietnamese (Vietnam)");
  ("zh", "Chinese");
  ("zh_CN", "Simplified Chinese");
  ("zh_TW", "Traditional Chinese (Taiwan)")
].

Definition LANG_MAP : gmap string string := list_to_map LANG_MAP_items.

(** [LANG_MAP.get(code, code)] *)
Definition LANG_MAP_get (code : string) : string :=
  default code (LANG_MAP !! code).

(** ** Python operations used by [main] *)

(** [not api_key] for the result of [os.getenv]: [None] and the empty
    string are the falsy values. *)
Definition falsy (o : option string) : bool :=
  match o with
  | None => true
  | Some s => bool_decide (s = "")
  end.

(** [not s] for a string. *)
Definition str_falsy (s : string) : bool := bool_decide (s = "").

(** [needle in hay] on strings is the substring test. *)
Definition is_substring (needle hay : string) : bool :=
  match String.index 0 needle hay with
  | Some _ => true
  | None => false
  end.

(** ['translations' == v]: a string equals only an equal string. *)
Definition str_eq_val (s : string) (v : pyval) : bool :=
  match v with
  | PyStr s' => bool_decide (s = s')
  | _ => false
  end.

(** [key in data].  On a dict it tests the keys, on a list the elements,
    on a string the substrings; the other values that [json.loads] can
    return are not containers and the test raises [TypeError]. *)
Definition py_in (w : World) (key : string) (data : pyval) : Run bool :=
  match data with
  | PyDict d => mret (match d !! key with Some _ => true | None => false end)
  | PyList l => mret (existsb (str_eq_val key) l)
  | PyStr s => mret (is_substring key s)
  | _ => raise (mkExn TypeError (interp_str w (NotIterable data)))
  end.

(** The values on which [in] is defined: the others make [py_in] raise. *)
Definition is_container (v : pyval) : bool :=
  match v with
  | PyDict _ | PyList _ | PyStr _ => true
  | _ => false
  end.

(** [data[key]] with a string key.  Only a dict can be indexed by a
    string. *)
Definition py_getitem (w : World) (data : pyval) (key : string) : Run pyval :=
  match data with
  | PyDict d =>
      match d !! key with
      | Some v => mret v
      | None => raise (mkExn OtherException ("'" +:+ key +:+ "'"))
      end
  | _ => raise (mkExn TypeError (interp_str w (NotSubscriptable data)))
  end.

(** [json.loads(response_content)]; the content of a message may be
    [None], which [json.loads] rejects with a [TypeError]. *)
Definition loads (w : World) (content : option string) : Run pyval :=
  match content with
  | Some body => lift (json_loads w body)
  | None => raise (mkExn TypeError (interp_str w LoadsNotText))
  end.

(** [l.remove(x)]: removes the first occurrence of [x]. *)
Fixpoint py_remove (x : string) (l : list string) : list string :=
  match l with
  | [] => []
  | y :: l' => if bool_decide (x = y) then l' else y :: py_remove x l'
  end.

(** ** The object store

    polib builds one [POEntry] object per entry of the file, and the
    [POFile] is a list of references to them.  [list(po_file)] copies the
    list, not the objects: the loop of step 4 mutates the very objects
    [po_file.save] later writes.  The store is the list of objects and a
    reference is an index into it. *)

Abbreviation Store := (list POEntry).

(** The objects a list of references points to. *)
Definition deref (h : Store) (refs : list nat) : list POEntry :=
  omap (λ r, h !! r) refs.

(** [entry.msgstr = translation] *)
Definition set_msgstr (translation : pyval) (e : POEntry) : POEntry :=
  {| msgid := msgid e; msgstr := translation; msgctxt := msgctxt e;
     msgid_plural := msgid_plural e; comment := comment e;
     tcomment := tcomment e; occurrences := occurrences e;
     flags := flags e; obsolete := obsolete e |}.

(** [entry.flags.remove('fuzzy')] *)
Definition remove_fuzzy (e : POEntry) : POEntry :=
  {| msgid := msgid e; msgstr := msgstr e; msgctxt := msgctxt e;
     msgid_plural := msgid_plural e; comment := comment e;
     tcomment := tcomment e; occurrences := occurrences e;
     flags := py_remove "fuzzy" (flags e); obsolete := obsolete e |}.

(** The body of the loop of step 4 on one entry object. *)
Definition update_entry (translation : pyval) (e : POEntry) : POEntry :=
  let e := set_msgstr translation e in
  if bool_decide ("fuzzy" ∈ flags e) then remove_fuzzy e else e.

(** [for entry, translation in zip(entries_to_translate, translated_texts)] *)
Definition update_entries (h : Store) (entries_to_translate : list nat)
    (translated_texts : list pyval) : Store :=
  foldl (λ h p, alter (update_entry p.2) p.1 h) h
        (zip entries_to_translate translated_texts).

(** The assignments of step 5, once [now_str] has been computed. *)
Definition update_metadata (now model lang : string)
    (md : gmap string string) : gmap string string :=
  let md := <["PO-Revision-Date" := now]> md in
  let md := <["Last-Translator" := "AI Translator (" +:+ model +:+ ")"]> md in
  let md := <["Language-Team" := LANG_MAP_get lang]> md in
  let md := <["Language" := lang]> md in
  if match md !! "Project-Id-Version" with
     | None => true
     | Some v => str_falsy v
     end
  then <["Project-Id-Version" := "koreader-assistant"]> md
  else md.

(** ** The script *)

Definition main (w : World) (args : Args) : Run () :=
  (* --- 1. Load Configuration --- *)
  let api_key := getenv w "OPENAI_API_KEY" in
  let base_url := getenv w "OPENAI_BASE_URL" in
  let model := default DEFAULT_MODEL (getenv w "OPENAI_MODEL") in
  (if falsy api_key then
     eprint "Error: OPENAI_API_KEY environment variable is not set.";;
     sys_exit 1
   else mret ());;
  let api_key := default "" api_key in
  let language_name := LANG_MAP_get (language args) in
  print ("Starting translation for " +:+ language args +:+ " (" +:+
         language_name +:+ ") using model " +:+ model +:+ ".");;
  (* --- 2. Read and Parse .po File --- *)
  po ← try_except
         (emit (ReadCatalog (input_file args));;
          lift (pofile w (input_file args)))
         (λ e, if is_OSError e then Some (
            eprint ("Error: Cannot read input file '" +:+ input_file args +:+
                    "': " +:+ exn_str e);;
            sys_exit 1)
          else None);
  let h : Store := cat_entries po in
  let po_file : list nat := seq 0 (length h) in
  let metadata := cat_metadata po in
  let entries_to_translate := po_file in
  (if bool_decide (entries_to_translate = []) then
     print ("No entries found in '" +:+ input_file args +:+
            "'. Creating empty output file.");;
     emit (Truncate (output_file args));;
     check (open_w w (output_file args));;
     sys_exit 0
   else mret ());;
  let source_texts := msgid <$> deref h entries_to_translate in
  print ("Found " +:+ pretty (length source_texts) +:+ " entries to translate.");;
  (* --- 3. Call AI for Translation --- *)
  translated_texts ← try_except
    (emit (NewClient api_key base_url);;
     check (new_client w api_key base_url);;
     let system_prompt := SYSTEM_PROMPT_TEMPLATE_format language_name in
     let user_content := json_dumps w source_texts in
     print "Sending request to AI API...";;
     let request := mkRequest api_key base_url model system_prompt
                              user_content "json_object" in
     emit (ChatCompletion request);;
     response_content ← lift (create w request);
     try_except
       (data ← loads w response_content;
        present ← py_in w "translations" data;
        v ← (if negb present then mret None
             else x ← py_getitem w data "translations"; mret (as_list x));
        match v with
        | None => raise (mkExn ValueError
            "AI response JSON is missing 'translations' key or it's not a list.")
        | Some translations => mret translations
        end)
       (λ e, if is_ValueError e then Some (
          eprint "Error: Could not decode or parse the AI's response.";;
          eprint ("Details: " +:+ exn_str e);;
          eprint "--- Raw AI Response ---";;
          eprint (default "None" response_content);;
          sys_exit 1)
        else None))
    (λ e, if is_APIError e then Some (
       eprint ("Error: An API error occurred: " +:+ exn_str e);;
       sys_exit 1)
     else Some (
       eprint ("An unexpected error occurred: " +:+ exn_str e);;
       sys_exit 1));
  print "Received translations from AI.";;
  (* --- 4. Validate and Update .po File --- *)
  (if bool_decide (length translated_texts ≠ length source_texts) then
     eprint "Error: Mismatch in translation count.";;
     eprint ("Expected " +:+ pretty (length source_texts) +:+
             " translations, but received " +:+
             pretty (length translated_texts) +:+ ".");;
     sys_exit 1
   else mret ());;
  let h := update_entries h entries_to_translate translated_texts in
  (* --- 5. Update Metadata before saving --- *)
  metadata ← try_except
    (print "Updating PO file metadata...";;
     now ← lift (now_str w);
     let metadata := update_metadata now model (language args) metadata in
     print "Metadata updated successfully.";;
     mret metadata)
    (λ e, Some (
       eprint ("Warning: Could not update PO metadata. Error: " +:+ exn_str e);;
       mret metadata));
  (* --- 6. Save Changes to Output File --- *)
  try_except
    (let saved := mkCatalog (deref h po_file) metadata in
     emit (SaveCatalog (output_file args) saved);;
     check (save w (output_file args) saved);;
     print ("Successfully saved " +:+ pretty (length entries_to_translate) +:+
            " translations to '" +:+ output_file args +:+ "'"))
    (λ e, Some (
       eprint ("Error: Failed to save the output file '" +:+ output_file args +:+
               "': " +:+ exn_str e);;
       sys_exit 1));;
  print ("--- Translation for " +:+ language args +:+
         " completed successfully! ---").

(** ** Names for what a run sends and saves

    These abbreviate expressions that occur inside [main], so that the
    statements below can mention them. *)

(** The request [main] builds for a loaded catalog. *)
Definition request_for (w : World) (args : Args) (cat : Catalog) : ChatRequest :=
  mkRequest (default "" (getenv w "OPENAI_API_KEY"))
            (getenv w "OPENAI_BASE_URL")
            (default DEFAULT_MODEL (getenv w "OPENAI_MODEL"))
            (SYSTEM_PROMPT_TEMPLATE_format (LANG_MAP_get (language args)))
            (json_dumps w (msgid <$> cat_entries cat))
            "json_object".

(** The header after step 5: updated when the clock answered, left as it
    was when computing the time stamp raised. *)
Definition final_metadata (w : World) (args : Args)
    (md : gmap string string) : gmap string string :=
  match now_str w with
  | inr now =>
      update_metadata now (default DEFAULT_MODEL (getenv w "OPENAI_MODEL"))
                      (language args) md
  | inl _ => md
  end.

(** The catalog handed to [po_file.save]. *)
Definition saved_catalog (w : World) (args : Args) (cat : Catalog)
    (translated_texts : list pyval) : Catalog :=
  let po_file := seq 0 (length (cat_entries cat)) in
  mkCatalog (deref (update_entries (cat_entries cat) po_file translated_texts) po_file)
            (final_metadata w args (cat_metadata cat)).

(** The run got as far as a response: the credential is set, the catalog
    was read and is not empty, the client was built and the API answered
    with the message content [body]. *)
Definition responded (w : World) (args : Args) (cat : Catalog)
    (body : string) : Prop :=
  falsy (getenv w "OPENAI_API_KEY") = false ∧
  pofile w (input_file args) = inr cat ∧
  cat_entries cat ≠ [] ∧
  new_client w (default "" (getenv w "OPENAI_API_KEY"))
             (getenv w "OPENAI_BASE_URL") = None ∧
  create w (request_for w args cat) = inr (Some body).

(** ... and [json.loads] accepted the body and returned [data]. *)
Definition answered (w : World) (args : Args) (cat : Catalog)
    (body : string) (data : pyval) : Prop :=
  responded w args cat body ∧ json_loads w body = inr data.

(** The effects of a run up to and including the API call. *)
Definition request_trace (w : World) (args : Args) (cat : Catalog) : list Event :=
  [ Stdout ("Starting translation for " +:+ language args +:+ " (" +:+
            LANG_MAP_get (language args) +:+ ") using model " +:+
            default DEFAULT_MODEL (getenv w "OPENAI_MODEL") +:+ ".");
    ReadCatalog (input_file args);
    Stdout ("Found " +:+ pretty (length (cat_entries cat)) +:+
            " entries to translate.");
    NewClient (default "" (getenv w "OPENAI_API_KEY")) (getenv w "OPENAI_BASE_URL");
    Stdout "Sending request to AI API...";
    ChatCompletion (request_for w args cat) ].

(** What the inner handler of step 3 prints for an exception [e] it
    catches, the raw body last. *)
Definition parse_failure_trace (e : PyExn) (body : string) : list Event :=
  [ Stderr "Error: Could not decode or parse the AI's response.";
    Stderr ("Details: " +:+ exn_str e);
    Stderr "--- Raw AI Response ---";
    Stderr body ].

(** The exception the script raises itself when the field is missing or
    is not a list. *)
Definition missing_translations : PyExn :=
  mkExn ValueError
    "AI response JSON is missing 'translations' key or it's not a list.".

(** What step 5 prints. *)
Definition metadata_trace (w : World) : list Event :=
  Stdout "Updating PO file metadata..." ::
  match now_str w with
  | inr _ => [Stdout "Metadata updated successfully."]
  | inl e => [Stderr ("Warning: Could not update PO metadata. Error: " +:+ exn_str e)]
  end.

(** What step 6 prints after calling [po_file.save], and how [main] ends. *)
Definition save_trace (args : Args) (n : nat) (r : option PyExn) : list Event :=
  match r with
  | None =>
      [ Stdout ("Successfully saved " +:+ pretty n +:+ " translations to '" +:+
                output_file args +:+ "'");
        Stdout ("--- Translation for " +:+ language args +:+
                " completed successfully! ---") ]
  | Some e =>
      [ Stderr ("Error: Failed to save the output file '" +:+ output_file args +:+
                "': " +:+ exn_str e) ]
  end.

Definition save_result (r : option PyExn) : Stop + () :=
  match r with None => inr () | Some _ => inl (SysExit 1) end.

(** Positional merge: what the loop of step 4 computes when the
    references are the positions themselves, as they are for a freshly
    loaded catalog.  Entries past the end of the translations are left
    alone, as [zip] stops at the shorter list. *)
Fixpoint assign (h : Store) (ts : list pyval) : Store :=
  match h, ts with
  | e :: h', t :: ts' => update_entry t e :: assign h' ts'
  | _, _ => h
  end.

(** ** A sample world

    A world in which every call succeeds, used to run [main] on concrete
    inputs: the credential is [key], the input file holds [cat], the API
    answers [body], and [json.loads] maps [body] to [parsed].  The text
    of the interpreter's [TypeError]s is CPython 3.12's. *)

(** A double quote, and a JSON string literal for text that needs no
    escaping. *)
Definition dquote : string := String (Ascii.ascii_of_nat 34) EmptyString.

Definition jstr (s : string) : string := dquote +:+ s +:+ dquote.

Definition type_name (v : pyval) : string :=
  match v with
  | PyNone => "NoneType" | PyBool _ => "bool" | PyInt _ => "int"
  | PyFloat _ => "float" | PyStr _ => "str" | PyList _ => "list"
  | PyDict _ => "dict"
  end.

Definition cpython_str (e : InterpError) : string :=
  match e with
  | NotIterable v => "argument of type '" +:+ type_name v +:+ "' is not iterable"
  | NotSubscriptable (PyList _) => "list indices must be integers or slices, not str"
  | NotSubscriptable (PyStr _) => "string indices must be integers, not 'str'"
  | NotSubscriptable v => "'" +:+ type_name v +:+ "' object is not subscriptable"
  | LoadsNotText => "the JSON object must be str, bytes or bytearray, not NoneType"
  end.

Definition sample_world (key : option string) (cat : Catalog)
    (body : string) (parsed : PyExn + pyval) : World :=
  {| getenv := λ name, if bool_decide (name = "OPENAI_API_KEY") then key else None;
     pofile := λ _, inr cat;
     new_client := λ _ _, None;
     create := λ _, inr (Some body);
     json_dumps := λ l, "[" +:+ String.concat ", " (jstr <$> l) +:+ "]";
     json_loads := λ s,
       if bool_decide (s = body) then parsed
       else inl (mkExn JSONDecodeError "Expecting value: line 1 column 1 (char 0)");
     interp_str := cpython_str;
     open_w := λ _, None;
     now_str := inr "2025-01-01 12:00+0000";
     save := λ _ _, None |}.

Definition sample_args : Args := mkArgs "todo.po" "done.po" "fr".

(** An entry as polib loads it from an untranslated message. *)
Definition sample_entry (id : string) (fl : list string) : POEntry :=
  mkEntry id (PyStr "") None "" "" "" [] fl false.

Definition sample_catalog : Catalog :=
  mkCatalog [sample_entry "Hello" ["fuzzy"]; sample_entry "Goodbye" ["c-format"]]
            {["Project-Id-Version" := "demo 1.0"]}.

Definition empty_catalog : Catalog := mkCatalog [] ∅.

(** The response of the specification's example, as text and parsed. *)
Definition sample_body : string :=
  "{" +:+ jstr "translations" +:+ ": [" +:+ jstr "Bonjour" +:+ ", " +:+
  jstr "Au revoir" +:+ "]}".

Definition sample_reply : pyval :=
  PyDict {["translations" := PyList [PyStr "Bonjour"; PyStr "Au revoir"]]}.



(** A response with one translation too few. *)
Definition short_body : string :=
  "{" +:+ jstr "translations" +:+ ": [" +:+ jstr "Bonjour" +:+ "]}".

Definition short_reply : pyval :=
  PyDict {["translations" := PyList [PyStr "Bonjour"]]}.

(** A catalog whose only entry carries the flag line [#, fuzzy, fuzzy]. *)
Definition fuzzy_twice_catalog : Catalog :=
  mkCatalog [sample_entry "Hello" ["fuzzy"; "fuzzy"]] ∅.

(** The world of the specification's example: two entries, two
    translations, every call succeeds. *)
Definition example_world : World :=
  sample_world (Some "sk-test") sample_catalog sample_body (inr sample_reply).

(** The worlds of the two runs evaluated below: a flag line with
    ['fuzzy'] twice, and a response whose body is the JSON text [null]. *)
Definition fuzzy_twice_world : World :=
  sample_world (Some "sk-test") fuzzy_twice_catalog short_body (inr short_reply).

Definition null_world : World :=
  sample_world (Some "sk-test") sample_catalog "null" (inr PyNone).

(** ** Names used by the properties of whole runs *)

(** The effects of a trace other than printing, in order. *)
Definition io_events (t : list Event) : list Event :=
  omap (λ ev, match ev with Stdout _ | Stderr _ => None | _ => Some ev end) t.

(** The lines a trace prints on the error stream, in order. *)
Definition diagnostics (t : list Event) : list string :=
  omap (λ ev, match ev with Stderr s => Some s | _ => None end) t.

(** The run got as far as step 3: the credential is set and the catalog
    was read and is not empty. *)
Definition ready (w : World) (args : Args) (cat : Catalog) : Prop :=
  falsy (getenv w "OPENAI_API_KEY") = false ∧
  pofile w (input_file args) = inr cat ∧
  cat_entries cat ≠ [].

(** The effects of a run up to the construction of the client. *)
Definition client_trace (w : World) (args : Args) (cat : Catalog) : list Event :=
  [ Stdout ("Starting translation for " +:+ language args +:+ " (" +:+
            LANG_MAP_get (language args) +:+ ") using model " +:+
            default DEFAULT_MODEL (getenv w "OPENAI_MODEL") +:+ ".");
    ReadCatalog (input_file args);
    Stdout ("Found " +:+ pretty (length (cat_entries cat)) +:+
            " entries to translate.");
    NewClient (default "" (getenv w "OPENAI_API_KEY")) (getenv w "OPENAI_BASE_URL") ].

(** What the outer handler of step 3 prints for an exception [e]. *)
Definition transport_failure_line (e : PyExn) : string :=
  if is_APIError e then "Error: An API error occurred: " +:+ exn_str e
  else "An unexpected error occurred: " +:+ exn_str e.

(** How often a flag occurs in a flag list. *)
Definition count_flag (x : string) (l : list string) : nat :=
  length (filter (λ y, y = x) l).

(** A world that answers every call with a fixed result, to run [main]
    through each of its failure paths. *)
Definition scripted_world (key : option string) (read : PyExn + Catalog)
    (client : option PyExn) (reply : PyExn + option string)
    (parsed : PyExn + pyval) (opened : option PyExn)
    (clock : PyExn + string) (saved : option PyExn) : World :=
  {| getenv := λ name, if bool_decide (name = "OPENAI_API_KEY") then key else None;
     pofile := λ _, read;
     new_client := λ _ _, client;
     create := λ _, reply;
     json_dumps := λ l, "[" +:+ String.concat ", " (jstr <$> l) +:+ "]";
     json_loads := λ _, parsed;
     interp_str := cpython_str;
     open_w := λ _, opened;
     now_str := clock;
     save := λ _ _, saved |}.

(** The requests a trace sends to the API, the paths it reads and the
    paths it writes, in order. *)
Definition requests (t : list Event) : list ChatRequest :=
  omap (λ ev, match ev with ChatCompletion req => Some req | _ => None end) t.

Definition read_paths (t : list Event) : list string :=
  omap (λ ev, match ev with ReadCatalog p => Some p | _ => None end) t.

Definition written_paths (t : list Event) : list string :=
  omap (λ ev, match ev with
              | Truncate p | SaveCatalog p _ => Some p
              | _ => None
              end) t.

(** Worlds for the failure paths: each differs from the successful
    example in one answer. *)
Definition stamp : string := "2025-01-01 12:00+0000".

Definition unreadable_world : World :=
  scripted_world (Some "sk-test")
    (inl (mkExn OSError "[Errno 2] No such file or directory: 'todo.po'"))
    None (inr (Some sample_body)) (inr sample_reply) None (inr stamp) None.

Definition undecodable_file_world : World :=
  scripted_world (Some "sk-test")
    (inl (mkExn ValueError "'utf-8' codec can't decode byte 0xff in position 0"))
    None (inr (Some sample_body)) (inr sample_reply) None (inr stamp) None.

Definition no_client_world : World :=
  scripted_world (Some "sk-test") (inr sample_catalog)
    (Some (mkExn OtherException "Invalid URL"))
    (inr (Some sample_body)) (inr sample_reply) None (inr stamp) None.

Definition api_down_world : World :=
  scripted_world (Some "sk-test") (inr sample_catalog) None
    (inl (mkExn APIError "Connection error."))
    (inr sample_reply) None (inr stamp) None.

Definition no_content_world : World :=
  scripted_world (Some "sk-test") (inr sample_catalog) None
    (inr None) (inr sample_reply) None (inr stamp) None.

Definition apology_world : World :=
  scripted_world (Some "sk-test") (inr sample_catalog) None
    (inr (Some "Sorry, I cannot help with that."))
    (inl (mkExn JSONDecodeError "Expecting value: line 1 column 1 (char 0)"))
    None (inr stamp) None.

Definition wrong_key_world : World :=
  scripted_world (Some "sk-test") (inr sample_catalog) None
    (inr (Some ("{" +:+ jstr "result" +:+ ": []}")))
    (inr (PyDict {["result" := PyList []]}))
    None (inr stamp) None.

Definition bare_array_world : World :=
  scripted_world (Some "sk-test") (inr sample_catalog) None
    (inr (Some ("[" +:+ jstr "Bonjour" +:+ ", " +:+ jstr "Au revoir" +:+ "]")))
    (inr (PyList [PyStr "Bonjour"; PyStr "Au revoir"]))
    None (inr stamp) None.

Definition disk_full_world : World :=
  scripted_world (Some "sk-test") (inr sample_catalog) None
    (inr (Some sample_body)) (inr sample_reply) None (inr stamp)
    (Some (mkExn OSError "[Errno 28] No space left on device")).

Definition no_clock_world : World :=
  scripted_world (Some "sk-test") (inr sample_catalog) None
    (inr (Some sample_body)) (inr sample_reply) None
    (inl (mkExn OtherException "timestamp out of range for platform time_t"))
    None.

(** * Properties *)

(** ** Sample runs *)

Example py_remove_first_only :
  py_remove "fuzzy" ["c-format"; "fuzzy"; "fuzzy"] = ["c-format"; "fuzzy"].
Proof. reflexivity. Qed.

Example LANG_MAP_get_listed : LANG_MAP_get "pt_BR" = "Portuguese (Brazil)".
Proof. by vm_compute. Qed.

Example LANG_MAP_get_unlisted : LANG_MAP_get "tlh" = "tlh".
Proof. by vm_compute. Qed.

Example membership_in_a_string :
  is_substring "translations" "no translations here" = true ∧
  is_substring "translations" "translation" = false.
Proof. by vm_compute. Qed.

(** The example of the specification: source texts Hello and Goodbye,
    response Bonjour and Au revoir, language fr. *)
Example example_run :
  exit_status (main example_world sample_args) = 0 ∧
  ∃ out, saved_files (trace (main example_world sample_args))
         = [("done.po", out)] ∧
         (λ e, (msgid e, msgstr e, flags e)) <$> cat_entries out
         = [("Hello", PyStr "Bonjour", []);
            ("Goodbye", PyStr "Au revoir", ["c-format"])] ∧
         cat_metadata out !! "Language" = Some "fr" ∧
         cat_metadata out !! "Language-Team" = Some "French" ∧
         cat_metadata out !! "Last-Translator" = Some "AI Translator (gpt-5-nano)" ∧
         cat_metadata out !! "Project-Id-Version" = Some "demo 1.0".
Proof.
  split; [by vm_compute|].
  eexists. split; [by vm_compute|]. by vm_compute.
Qed.

(** ** The store and the update loop *)

Section store.
Implicit Types (h pre : list POEntry) (ts : list pyval) (e : POEntry).

Lemma deref_seq_app pre h :
  deref (pre ++ h) (seq (length pre) (length h)) = h.
Proof.
  revert pre. induction h as [|e h IH]; intros pre; [done|].
  cbn [length seq]. unfold deref in *. cbn [omap list_omap].
  rewrite list_lookup_middle by done. f_equal.
  specialize (IH (pre ++ [e])).
  rewrite <- (assoc_L (++)), length_app, Nat.add_1_r in IH. apply IH.
Qed.

Lemma deref_seq h : deref h (seq 0 (length h)) = h.
Proof. apply (deref_seq_app []). Qed.

Lemma update_entries_seq_app pre h ts :
  update_entries (pre ++ h) (seq (length pre) (length h)) ts
  = pre ++ assign h ts.
Proof.
  unfold update_entries.
  revert pre ts. induction h as [|e h IH]; intros pre ts; [done|].
  destruct ts as [|t ts]; [done|].
  cbn [length seq zip_with foldl fst snd assign].
  rewrite alter_app_r_alt, Nat.sub_diag by done. cbn [alter list_alter].
  specialize (IH (pre ++ [update_entry t e]) ts).
  rewrite <- !(assoc_L (++)), length_app, Nat.add_1_r in IH. apply IH.
Qed.

Lemma update_entries_seq h ts :
  update_entries h (seq 0 (length h)) ts = assign h ts.
Proof. apply (update_entries_seq_app []). Qed.

Lemma length_assign h ts : length (assign h ts) = length h.
Proof.
  revert ts. induction h as [|e h IH]; intros [|t ts]; cbn; auto.
Qed.

Lemma lookup_assign h ts i e t :
  h !! i = Some e → ts !! i = Some t →
  assign h ts !! i = Some (update_entry t e).
Proof.
  revert ts i. induction h as [|e' h IH]; intros [|t' ts] [|i] He Ht;
    simplify_eq/=; eauto.
Qed.

(** Entries past the end of the translations are left alone. *)
Lemma lookup_assign_ge h ts i :
  (length ts ≤ i)%nat → assign h ts !! i = h !! i.
Proof.
  revert ts i. induction h as [|e' h IH]; intros [|t' ts] [|i] Hi;
    cbn in *; auto with lia.
Qed.

(** What [po_file.save] sees after the loop. *)
Lemma saved_entries h ts :
  deref (update_entries h (seq 0 (length h)) ts) (seq 0 (length h))
  = assign h ts.
Proof.
  rewrite update_entries_seq.
  rewrite <- (length_assign h ts). apply deref_seq.
Qed.
End store.

(** ** One entry *)

Section entry.
Implicit Types (e : POEntry) (t : pyval) (l : list string) (x y : string).

Lemma py_remove_absent x l : x ∉ l → py_remove x l = l.
Proof.
  induction l as [|y l IH]; [done|]. intros Hx.
  apply not_elem_of_cons in Hx as [Hne Hl]. cbn.
  rewrite bool_decide_eq_false_2 by done. by rewrite IH.
Qed.

(** Removing [x] leaves every other element where it was. *)
Lemma elem_of_py_remove_ne x y l : y ≠ x → y ∈ py_remove x l ↔ y ∈ l.
Proof.
  intros Hne. induction l as [|z l IH]; [done|]. cbn.
  case_bool_decide as Hz; subst.
  - rewrite elem_of_cons. split; [by right|]. by intros [?|?].
  - rewrite !elem_of_cons, IH. done.
Qed.

(** With a single occurrence, removal clears the element. *)
Lemma py_remove_NoDup x l : NoDup l → x ∉ py_remove x l.
Proof.
  induction 1 as [|y l Hy Hnd IH]; cbn; [apply not_elem_of_nil|].
  case_bool_decide as Hz; subst; [done|].
  apply not_elem_of_cons. done.
Qed.

Lemma msgstr_update_entry t e : msgstr (update_entry t e) = t.
Proof. unfold update_entry. by case_bool_decide. Qed.

Lemma flags_update_entry t e :
  flags (update_entry t e) = py_remove "fuzzy" (flags e).
Proof.
  unfold update_entry. cbn. case_bool_decide as Hf; cbn; [done|].
  by rewrite py_remove_absent.
Qed.

(** The loop body touches [msgstr] and [flags] and nothing else. *)
Lemma update_entry_frame t e :
  msgid (update_entry t e) = msgid e ∧
  msgctxt (update_entry t e) = msgctxt e ∧
  msgid_plural (update_entry t e) = msgid_plural e ∧
  comment (update_entry t e) = comment e ∧
  tcomment (update_entry t e) = tcomment e ∧
  occurrences (update_entry t e) = occurrences e ∧
  obsolete (update_entry t e) = obsolete e.
Proof. unfold update_entry. by case_bool_decide. Qed.

Lemma update_entry_clears_single_fuzzy t e :
  NoDup (flags e) → "fuzzy" ∉ flags (update_entry t e).
Proof. rewrite flags_update_entry. apply py_remove_NoDup. Qed.

Lemma update_entry_keeps_other_flags t e y :
  y ≠ "fuzzy" → y ∈ flags (update_entry t e) ↔ y ∈ flags e.
Proof. rewrite flags_update_entry. apply elem_of_py_remove_ne. Qed.
End entry.

(** ** The language table and the header *)




Section header.
Implicit Types (md : gmap string string) (now model lang : string).

Lemma update_metadata_project_id now model lang md :
  update_metadata now model lang md !! "Project-Id-Version"
  = Some (match md !! "Project-Id-Version" with
          | Some v => if str_falsy v then "koreader-assistant" else v
          | None => "koreader-assistant"
          end).
Proof.
  unfold update_metadata.
  rewrite !lookup_insert_ne by done.
  destruct (md !! "Project-Id-Version") as [v|] eqn:Hv.
  - destruct (str_falsy v).
    + apply lookup_insert_eq.
    + by rewrite !lookup_insert_ne.
  - apply lookup_insert_eq.
Qed.

Lemma update_metadata_language_team now model lang md :
  update_metadata now model lang md !! "Language-Team"
  = Some (LANG_MAP_get lang).
Proof.
  unfold update_metadata.
  assert (∀ m : gmap string string,
    <["Language" := lang]> (<["Language-Team" := LANG_MAP_get lang]> m)
      !! "Language-Team" = Some (LANG_MAP_get lang)) as Hm.
  { intros m. rewrite lookup_insert_ne by done. apply lookup_insert_eq. }
  match goal with |- (if ?c then _ else _) !! _ = _ => destruct c end;
    [rewrite lookup_insert_ne by done|]; apply Hm.
Qed.

Lemma update_metadata_language now model lang md :
  update_metadata now model lang md !! "Language" = Some lang.
Proof.
  unfold update_metadata.
  match goal with |- (if ?c then _ else _) !! _ = _ => destruct c end;
    [rewrite lookup_insert_ne by done|]; apply lookup_insert_eq.
Qed.
End header.

(** ** Runs of [main] *)

Arguments String.append : simpl never.
Arguments pretty : simpl never.
Arguments falsy : simpl never.
Arguments LANG_MAP_get : simpl never.
Arguments SYSTEM_PROMPT_TEMPLATE_format : simpl never.
Arguments deref : simpl never.
Arguments update_entries : simpl never.
Arguments update_metadata : simpl never.

Lemma seq_length_nil {A} (l : list A) :
  bool_decide (seq 0 (length l) = []) = bool_decide (l = []).
Proof. by destruct l. Qed.

Section runs.
Variables (w : World) (args : Args).

Lemma main_without_credential :
  falsy (getenv w "OPENAI_API_KEY") = true →
  main w args
  = ([Stderr "Error: OPENAI_API_KEY environment variable is not set."],
     inl (SysExit 1)).
Proof. intros Hk. unfold main. by rewrite Hk. Qed.

Lemma main_empty_catalog cat :
  falsy (getenv w "OPENAI_API_KEY") = false →
  pofile w (input_file args) = inr cat →
  cat_entries cat = [] →
  main w args
  = ([ Stdout ("Starting translation for " +:+ language args +:+ " (" +:+
               LANG_MAP_get (language args) +:+ ") using model " +:+
               default DEFAULT_MODEL (getenv w "OPENAI_MODEL") +:+ ".");
       ReadCatalog (input_file args);
       Stdout ("No entries found in '" +:+ input_file args +:+
               "'. Creating empty output file.");
       Truncate (output_file args) ],
     match open_w w (output_file args) with
     | None => inl (SysExit 0)
     | Some e => inl (Raised e)
     end).
Proof.
  intros Hk Hpo Hnil. unfold main. rewrite Hk, Hpo. cbn. rewrite Hnil. cbn.
  by destruct (open_w w (output_file args)).
Qed.

Lemma main_count_mismatch cat body d ts :
  answered w args cat body (PyDict d) →
  d !! "translations" = Some (PyList ts) →
  length ts ≠ length (cat_entries cat) →
  main w args
  = (request_trace w args cat ++
     [ Stdout "Received translations from AI.";
       Stderr "Error: Mismatch in translation count.";
       Stderr ("Expected " +:+ pretty (length (cat_entries cat)) +:+
               " translations, but received " +:+ pretty (length ts) +:+ ".") ],
     inl (SysExit 1)).
Proof.
  intros [(Hk & Hpo & Hne & Hcl & Hcr) Hjs] Hd Hlen.
  unfold main. rewrite Hk, Hpo. cbn.
  rewrite seq_length_nil, bool_decide_eq_false_2 by done. cbn.
  rewrite deref_seq, Hcl. cbn.
  unfold request_for in Hcr. rewrite Hcr. cbn. rewrite Hjs. cbn.
  rewrite Hd. cbn. rewrite length_fmap.
  rewrite bool_decide_eq_true_2 by done. reflexivity.
Qed.

Lemma main_validated cat body d ts :
  answered w args cat body (PyDict d) →
  d !! "translations" = Some (PyList ts) →
  length ts = length (cat_entries cat) →
  main w args
  = (request_trace w args cat ++
     [Stdout "Received translations from AI."] ++
     metadata_trace w ++
     [SaveCatalog (output_file args) (saved_catalog w args cat ts)] ++
     save_trace args (length (cat_entries cat))
       (save w (output_file args) (saved_catalog w args cat ts)),
     save_result (save w (output_file args) (saved_catalog w args cat ts))).
Proof.
  intros [(Hk & Hpo & Hne & Hcl & Hcr) Hjs] Hd Hlen.
  unfold main. rewrite Hk, Hpo. cbn.
  rewrite seq_length_nil, bool_decide_eq_false_2 by done. cbn.
  rewrite deref_seq, Hcl. cbn.
  unfold request_for in Hcr. rewrite Hcr. cbn. rewrite Hjs. cbn.
  rewrite Hd. cbn. rewrite length_fmap.
  rewrite bool_decide_eq_false_2 by (by intros ?). cbn.
  unfold saved_catalog, final_metadata, metadata_trace.
  rewrite length_seq.
  destruct (now_str w) as [e|now]; cbn;
    match goal with |- context [save w ?p ?c] => destruct (save w p c) end;
    reflexivity.
Qed.
End runs.

(** ** Every run that does not reach [po_file.save]

    Case analysis over everything the world can answer.  Either the run
    gets a well-formed response of the right length, and then
    [main_validated] describes it, or it stops before saving. *)

(** Membership in an explicit trace. *)
Ltac trace_mem H :=
  repeat (apply elem_of_cons in H as [H|H]; [try discriminate H|]);
  try (by apply elem_of_nil in H).

(** The next call of [main] whose answer is not known yet, in program
    order. *)
Ltac next_answer :=
  match goal with
  | |- context [is_OSError ?e] => destruct (is_OSError e) eqn:?
  | |- context [is_ValueError ?e] => destruct (is_ValueError e) eqn:?
  | |- context [is_APIError ?e] => destruct (is_APIError e) eqn:?
  | |- context [falsy ?x] => destruct (falsy x) eqn:?
  | |- context [lift (pofile ?w ?p)] => destruct (pofile w p) as [?|?] eqn:?
  | |- context [bool_decide (seq 0 (length ?l) = [])] =>
      rewrite (seq_length_nil l); destruct (decide (l = []));
      [rewrite (bool_decide_eq_true_2 (l = [])) by done
      |rewrite (bool_decide_eq_false_2 (l = [])) by done]
  | |- context [check (open_w ?w ?p)] => destruct (open_w w p) eqn:?
  | |- context [check (new_client ?w ?k ?u)] => destruct (new_client w k u) eqn:?
  | |- context [lift (create ?w ?r)] => destruct (create w r) as [?|[?|]] eqn:?
  | |- context [lift (json_loads ?w ?b)] => destruct (json_loads w b) as [?|[]] eqn:?
  | |- context [match ?d !! "translations" with _ => _ end] =>
      destruct (d !! "translations") as [[]|] eqn:?
  | |- context [existsb ?f ?l] => destruct (existsb f l) eqn:?
  | |- context [is_substring ?a ?b] => destruct (is_substring a b) eqn:?
  | |- context [bool_decide (length ?a ≠ length ?b)] =>
      destruct (decide (length a = length b));
      [rewrite (bool_decide_eq_false_2 (length a ≠ length b)) by (by intros ?)
      |rewrite (bool_decide_eq_true_2 (length a ≠ length b)) by done]
  end; cbn.

Lemma main_cases (w : World) (args : Args) :
  (∃ cat body d ts,
      answered w args cat body (PyDict d) ∧
      d !! "translations" = Some (PyList ts) ∧
      length ts = length (cat_entries cat))
  ∨ ((∀ p out, SaveCatalog p out ∉ trace (main w args)) ∧
     (∀ req, ChatCompletion req ∈ trace (main w args) →
        ∃ cat, pofile w (input_file args) = inr cat ∧
               req = request_for w args cat) ∧
     (exit_status (main w args) = 0 →
        ∃ cat, falsy (getenv w "OPENAI_API_KEY") = false ∧
               pofile w (input_file args) = inr cat ∧
               cat_entries cat = [] ∧
               open_w w (output_file args) = None)).
Proof.
  unfold main, trace, exit_status.
  repeat next_answer.
  all: lazymatch goal with
       | |- context [lift (now_str _)] =>
           left; rewrite ?length_fmap, ?deref_seq in *;
           eexists _, _, _, _; unfold answered, responded, request_for;
           repeat split; eauto
       | _ =>
           right; split; [intros p' out' Hin; trace_mem Hin|];
           split; [intros req Hin; trace_mem Hin|intros Hst; try discriminate Hst]
       end.
  all: try (injection Hin as ->; unfold request_for; rewrite deref_seq).
  all: by eauto 10.
Qed.

(** ** Consequences of the case analysis *)

Section inversions.
Variables (w : World) (args : Args).

(** Membership in the trace of a validated run. *)
Lemma validated_save_event cat ts p out :
  SaveCatalog p out ∈
    request_trace w args cat ++
    [Stdout "Received translations from AI."] ++
    metadata_trace w ++
    [SaveCatalog (output_file args) (saved_catalog w args cat ts)] ++
    save_trace args (length (cat_entries cat))
      (save w (output_file args) (saved_catalog w args cat ts)) →
  p = output_file args ∧ out = saved_catalog w args cat ts.
Proof.
  unfold request_trace, metadata_trace, save_trace. intros Hin.
  destruct (now_str w), (save w _ _); cbn in Hin; trace_mem Hin;
    by injection Hin as -> ->.
Qed.

(** Whatever is handed to [po_file.save] comes from a validated run. *)
Lemma save_event_inv p out :
  SaveCatalog p out ∈ trace (main w args) →
  ∃ cat body d ts,
    answered w args cat body (PyDict d) ∧
    d !! "translations" = Some (PyList ts) ∧
    length ts = length (cat_entries cat) ∧
    p = output_file args ∧
    out = saved_catalog w args cat ts.
Proof.
  intros Hin.
  destruct (main_cases w args) as [(cat & body & d & ts & Ha & Hd & Hlen)|(Hno & _)].
  - rewrite (main_validated w args cat body d ts Ha Hd Hlen) in Hin.
    apply validated_save_event in Hin as [-> ->]. eauto 10.
  - by apply Hno in Hin.
Qed.


(** A run on a non-empty catalog that ends with status 0 is a validated
    run whose save succeeded. *)
Lemma success_inv cat :
  pofile w (input_file args) = inr cat →
  cat_entries cat ≠ [] →
  exit_status (main w args) = 0 →
  ∃ body d ts,
    answered w args cat body (PyDict d) ∧
    d !! "translations" = Some (PyList ts) ∧
    length ts = length (cat_entries cat) ∧
    save w (output_file args) (saved_catalog w args cat ts) = None.
Proof.
  intros Hpo Hne Hst.
  destruct (main_cases w args) as [(cat' & body & d & ts & Ha & Hd & Hlen)|(_ & _ & Hz)].
  - assert (cat' = cat) as ->.
    { destruct Ha as [(_ & Hpo' & _) _]. congruence. }
    rewrite (main_validated w args cat body d ts Ha Hd Hlen) in Hst.
    unfold exit_status, save_result in Hst. cbn in Hst.
    destruct (save w _ _) eqn:Hsave; [discriminate|]. eauto 10.
  - destruct (Hz Hst) as (cat' & _ & Hpo' & Hnil & _). congruence.
Qed.
End inversions.

(** ** Malformed responses *)

Section malformed.
Variables (w : World) (args : Args).

Ltac run_to_response Hk Hpo Hne Hcl Hcr :=
  unfold main; rewrite Hk, Hpo; cbn;
  rewrite seq_length_nil, bool_decide_eq_false_2 by done; cbn;
  rewrite deref_seq, Hcl; cbn;
  unfold request_for in Hcr; rewrite Hcr; cbn.

(** [json.loads] rejects the body: the inner handler prints it. *)
Lemma main_undecodable cat body e :
  responded w args cat body →
  json_loads w body = inl e →
  is_ValueError e = true →
  main w args
  = (request_trace w args cat ++ parse_failure_trace e body, inl (SysExit 1)).
Proof.
  intros (Hk & Hpo & Hne & Hcl & Hcr) Hjs He.
  run_to_response Hk Hpo Hne Hcl Hcr. rewrite Hjs. cbn. rewrite He. cbn.
  by rewrite length_fmap.
Qed.

(** The body is a JSON object without a ['translations'] list: the
    script raises [ValueError] and the inner handler prints the body. *)
Lemma main_missing_field cat body d :
  answered w args cat body (PyDict d) →
  from_option as_list None (d !! "translations") = None →
  main w args
  = (request_trace w args cat ++ parse_failure_trace missing_translations body,
     inl (SysExit 1)).
Proof.
  intros [(Hk & Hpo & Hne & Hcl & Hcr) Hjs] Hd.
  run_to_response Hk Hpo Hne Hcl Hcr. rewrite Hjs. cbn.
  destruct (d !! "translations") as [v|]; cbn in *; [rewrite Hd; cbn|];
    by rewrite length_fmap.
Qed.

(** The body is JSON but neither an object, an array nor a string: the
    membership test raises [TypeError], which only the outer handler
    catches, and that handler does not print the body. *)
Lemma main_not_a_container cat body data :
  answered w args cat body data →
  is_container data = false →
  main w args
  = (request_trace w args cat ++
     [Stderr ("An unexpected error occurred: " +:+
              interp_str w (NotIterable data))],
     inl (SysExit 1)).
Proof.
  intros [(Hk & Hpo & Hne & Hcl & Hcr) Hjs] Hc.
  run_to_response Hk Hpo Hne Hcl Hcr. rewrite Hjs, length_fmap.
  by destruct data.
Qed.
End malformed.

(** * The claims *)

(** Membership of an element that is in an explicit list. *)
Ltac trace_in :=
  repeat first [apply list_elem_of_here | apply list_elem_of_further].

(** C6. When the credential variable is absent from the environment, the
    run ends with a non-zero status (1), and its trace holds no attempt to
    read the input catalog, no client construction and no API call: the
    only effect is the diagnostic on the error stream. *)
Theorem C6_absent_credential_stops_first (w : World) (args : Args) :
  getenv w "OPENAI_API_KEY" = None →
  exit_status (main w args) = 1 ∧
  exit_status (main w args) ≠ 0 ∧
  (∀ p, ReadCatalog p ∉ trace (main w args)) ∧
  (∀ k u, NewClient k u ∉ trace (main w args)) ∧
  (∀ req, ChatCompletion req ∉ trace (main w args)).
Proof.
  intros Hk.
  rewrite main_without_credential by (by rewrite Hk).
  unfold exit_status, trace. cbn.
  repeat split; [done|..]; intros; intros Hin; trace_mem Hin.
Qed.

Lemma C6_witness :
  let w := sample_world None sample_catalog sample_body (inr sample_reply) in
  exit_status (main w sample_args) = 1 ∧
  exit_status (main w sample_args) ≠ 0 ∧
  (∀ p, ReadCatalog p ∉ trace (main w sample_args)) ∧
  (∀ k u, NewClient k u ∉ trace (main w sample_args)) ∧
  (∀ req, ChatCompletion req ∉ trace (main w sample_args)).
Proof.
  apply (C6_absent_credential_stops_first
           (sample_world None sample_catalog sample_body (inr sample_reply))
           sample_args).
  reflexivity.
Defined.

(** C9. A credential variable set to the empty string is treated exactly
    like an absent one: the run is the same as in a world where the
    variable is missing, it ends with status 1 and prints the
    missing-credential diagnostic and nothing else. *)
Theorem C9_empty_credential_is_absent (w w' : World) (args : Args) :
  getenv w "OPENAI_API_KEY" = Some "" →
  getenv w' "OPENAI_API_KEY" = None →
  main w args = main w' args ∧
  exit_status (main w args) = 1 ∧
  trace (main w args)
  = [Stderr "Error: OPENAI_API_KEY environment variable is not set."].
Proof.
  intros Hk Hk'.
  rewrite (main_without_credential w) by (by rewrite Hk).
  rewrite (main_without_credential w') by (by rewrite Hk').
  done.
Qed.

Lemma C9_witness :
  let w := sample_world (Some "") sample_catalog sample_body (inr sample_reply) in
  let w' := sample_world None sample_catalog sample_body (inr sample_reply) in
  main w sample_args = main w' sample_args ∧
  exit_status (main w sample_args) = 1 ∧
  trace (main w sample_args)
  = [Stderr "Error: OPENAI_API_KEY environment variable is not set."].
Proof.
  apply (C9_empty_credential_is_absent
           (sample_world (Some "") sample_catalog sample_body (inr sample_reply))
           (sample_world None sample_catalog sample_body (inr sample_reply))
           sample_args); reflexivity.
Defined.

(** C5. For a catalog with zero entries (the credential being set and the
    output path being writable), the run ends with status 0, truncates
    the requested output file to an empty file, writes nothing else to
    it, and neither builds a client nor calls the API. *)
Theorem C5_empty_catalog_short_circuit (w : World) (args : Args) (cat : Catalog) :
  falsy (getenv w "OPENAI_API_KEY") = false →
  pofile w (input_file args) = inr cat →
  cat_entries cat = [] →
  open_w w (output_file args) = None →
  exit_status (main w args) = 0 ∧
  last (trace (main w args)) = Some (Truncate (output_file args)) ∧
  (∀ p, Truncate p ∈ trace (main w args) → p = output_file args) ∧
  (∀ p out, SaveCatalog p out ∉ trace (main w args)) ∧
  (∀ k u, NewClient k u ∉ trace (main w args)) ∧
  (∀ req, ChatCompletion req ∉ trace (main w args)).
Proof.
  intros Hk Hpo Hnil Hopen.
  rewrite (main_empty_catalog w args cat Hk Hpo Hnil), Hopen.
  unfold exit_status, trace. cbn.
  repeat split; try done.
  - intros p Hin. trace_mem Hin. by injection Hin.
  - intros p out Hin. trace_mem Hin.
  - intros k u Hin. trace_mem Hin.
  - intros req Hin. trace_mem Hin.
Qed.

Lemma C5_witness :
  let w := sample_world (Some "sk-test") empty_catalog sample_body (inr sample_reply) in
  exit_status (main w sample_args) = 0 ∧
  last (trace (main w sample_args)) = Some (Truncate "done.po") ∧
  (∀ p, Truncate p ∈ trace (main w sample_args) → p = "done.po") ∧
  (∀ p out, SaveCatalog p out ∉ trace (main w sample_args)) ∧
  (∀ k u, NewClient k u ∉ trace (main w sample_args)) ∧
  (∀ req, ChatCompletion req ∉ trace (main w sample_args)).
Proof.
  apply (C5_empty_catalog_short_circuit
           (sample_world (Some "sk-test") empty_catalog sample_body (inr sample_reply))
           sample_args empty_catalog); reflexivity.
Defined.

(** C2. For a non-empty catalog, when the response parses to an object
    whose ['translations'] list has a length different from the number of
    source strings sent, the run ends with status 1, reports the count
    mismatch with both counts on the error stream, and never writes the
    output file: its trace holds neither a save nor a truncation. *)
Theorem C2_count_mismatch_is_fatal (w : World) (args : Args) (cat : Catalog)
    (body : string) (d : gmap string pyval) (ts : list pyval) :
  answered w args cat body (PyDict d) →
  d !! "translations" = Some (PyList ts) →
  length ts ≠ length (cat_entries cat) →
  exit_status (main w args) = 1 ∧
  Stderr "Error: Mismatch in translation count." ∈ trace (main w args) ∧
  Stderr ("Expected " +:+ pretty (length (cat_entries cat)) +:+
          " translations, but received " +:+ pretty (length ts) +:+ ".")
    ∈ trace (main w args) ∧
  (∀ p out, SaveCatalog p out ∉ trace (main w args)) ∧
  (∀ p, Truncate p ∉ trace (main w args)).
Proof.
  intros Ha Hd Hlen.
  rewrite (main_count_mismatch w args cat body d ts Ha Hd Hlen).
  unfold exit_status, trace, request_trace. cbn.
  repeat split; try done; try trace_in; intros; intros Hin; trace_mem Hin.
Qed.

Lemma C2_witness :
  let w := sample_world (Some "sk-test") sample_catalog short_body (inr short_reply) in
  exit_status (main w sample_args) = 1 ∧
  Stderr "Error: Mismatch in translation count." ∈ trace (main w sample_args) ∧
  Stderr ("Expected " +:+ pretty 2 +:+ " translations, but received " +:+
          pretty 1 +:+ ".") ∈ trace (main w sample_args) ∧
  (∀ p out, SaveCatalog p out ∉ trace (main w sample_args)) ∧
  (∀ p, Truncate p ∉ trace (main w sample_args)).
Proof.
  apply (C2_count_mismatch_is_fatal
           (sample_world (Some "sk-test") sample_catalog short_body (inr short_reply))
           sample_args sample_catalog short_body
           {["translations" := PyList [PyStr "Bonjour"]]} [PyStr "Bonjour"]).
  - repeat split; try reflexivity. discriminate.
  - reflexivity.
  - cbn. discriminate.
Defined.

(** The save event of a validated run is in its trace. *)
Lemma validated_trace_has_save (w : World) (args : Args) (cat : Catalog)
    (ts : list pyval) (tail : list Event) :
  SaveCatalog (output_file args) (saved_catalog w args cat ts)
  ∈ request_trace w args cat ++
    [Stdout "Received translations from AI."] ++
    metadata_trace w ++
    [SaveCatalog (output_file args) (saved_catalog w args cat ts)] ++ tail.
Proof.
  rewrite !elem_of_app. right. right. right. left. apply list_elem_of_here.
Qed.

Lemma saved_catalog_entries (w : World) (args : Args) (cat : Catalog)
    (ts : list pyval) :
  cat_entries (saved_catalog w args cat ts) = assign (cat_entries cat) ts.
Proof. unfold saved_catalog. cbn. apply saved_entries. Qed.

(** C3. For a non-empty input catalog and a run that completes with
    status 0, exactly one catalog is saved, at the requested path; it has
    as many entries as the input, and entry i of the output has the
    msgid of entry i of the input.  Of an entry's fields only [msgstr]
    and [flags] change, and [flags] changes only by the removal of an
    occurrence of ['fuzzy']. *)
Theorem C3_entries_and_msgids_preserved (w : World) (args : Args) (cat : Catalog) :
  pofile w (input_file args) = inr cat →
  cat_entries cat ≠ [] →
  exit_status (main w args) = 0 →
  ∃ out,
    SaveCatalog (output_file args) out ∈ trace (main w args) ∧
    (∀ p o, SaveCatalog p o ∈ trace (main w args) →
            p = output_file args ∧ o = out) ∧
    save w (output_file args) out = None ∧
    length (cat_entries out) = length (cat_entries cat) ∧
    ∀ i e, cat_entries cat !! i = Some e →
      ∃ e', cat_entries out !! i = Some e' ∧
            msgid e' = msgid e ∧
            msgctxt e' = msgctxt e ∧
            msgid_plural e' = msgid_plural e ∧
            comment e' = comment e ∧
            tcomment e' = tcomment e ∧
            occurrences e' = occurrences e ∧
            obsolete e' = obsolete e ∧
            flags e' = py_remove "fuzzy" (flags e) ∧
            (∀ f, f ≠ "fuzzy" → f ∈ flags e' ↔ f ∈ flags e).
Proof.
  intros Hpo Hne Hst.
  destruct (success_inv w args cat Hpo Hne Hst)
    as (body & d & ts & Ha & Hd & Hlen & Hsave).
  exists (saved_catalog w args cat ts).
  pose proof (main_validated w args cat body d ts Ha Hd Hlen) as Hrun.
  split; [|split; [|split; [done|split]]].
  - rewrite Hrun. apply validated_trace_has_save.
  - intros p o Hin. rewrite Hrun in Hin.
    by apply validated_save_event in Hin.
  - by rewrite saved_catalog_entries, length_assign.
  - intros i e He.
    destruct (lookup_lt_is_Some_2 ts i) as [t Ht].
    { rewrite Hlen. by eapply lookup_lt_Some. }
    exists (update_entry t e).
    rewrite saved_catalog_entries.
    split; [by apply lookup_assign|].
    destruct (update_entry_frame t e) as (? & ? & ? & ? & ? & ? & ?).
    repeat split; try done.
    + apply flags_update_entry.
    + by apply update_entry_keeps_other_flags.
    + by apply update_entry_keeps_other_flags.
Qed.

Lemma C3_witness :
  let w := sample_world (Some "sk-test") sample_catalog sample_body (inr sample_reply) in
  ∃ out,
    SaveCatalog "done.po" out ∈ trace (main w sample_args) ∧
    (∀ p o, SaveCatalog p o ∈ trace (main w sample_args) →
            p = "done.po" ∧ o = out) ∧
    save w "done.po" out = None ∧
    length (cat_entries out) = 2 ∧
    ∀ i e, cat_entries sample_catalog !! i = Some e →
      ∃ e', cat_entries out !! i = Some e' ∧
            msgid e' = msgid e ∧
            msgctxt e' = msgctxt e ∧
            msgid_plural e' = msgid_plural e ∧
            comment e' = comment e ∧
            tcomment e' = tcomment e ∧
            occurrences e' = occurrences e ∧
            obsolete e' = obsolete e ∧
            flags e' = py_remove "fuzzy" (flags e) ∧
            (∀ f, f ≠ "fuzzy" → f ∈ flags e' ↔ f ∈ flags e).
Proof.
  apply (C3_entries_and_msgids_preserved
           (sample_world (Some "sk-test") sample_catalog sample_body (inr sample_reply))
           sample_args sample_catalog).
  - reflexivity.
  - discriminate.
  - by vm_compute.
Defined.

(** C7. The metadata update writes ['Project-Id-Version'] only when the
    key is absent or holds the empty string, and then writes
    ['koreader-assistant']; a non-empty value is kept.  Hence, for every
    catalog whose header holds a non-empty project identifier, every
    catalog the run saves holds the same value. *)
Theorem C7_project_id_only_when_missing :
  (∀ now model lang (md : gmap string string),
     update_metadata now model lang md !! "Project-Id-Version"
     = Some (match md !! "Project-Id-Version" with
             | Some v => if bool_decide (v = "") then "koreader-assistant" else v
             | None => "koreader-assistant"
             end)) ∧
  (∀ (w : World) (args : Args) (cat : Catalog) (v p : string) (out : Catalog),
     pofile w (input_file args) = inr cat →
     cat_metadata cat !! "Project-Id-Version" = Some v →
     v ≠ "" →
     SaveCatalog p out ∈ trace (main w args) →
     cat_metadata out !! "Project-Id-Version" = Some v).
Proof.
  split; [intros; apply update_metadata_project_id|].
  intros w args cat v p out Hpo Hv Hne Hin.
  apply save_event_inv in Hin
    as (cat' & body & d & ts & Ha & _ & _ & _ & ->).
  assert (cat' = cat) as ->.
  { destruct Ha as [(_ & Hpo' & _) _]. congruence. }
  unfold saved_catalog, final_metadata. cbn.
  destruct (now_str w) as [e|now]; [done|].
  rewrite update_metadata_project_id, Hv. unfold str_falsy.
  by rewrite bool_decide_eq_false_2.
Qed.

Lemma C7_witness :
  let w := sample_world (Some "sk-test") sample_catalog sample_body (inr sample_reply) in
  cat_metadata (saved_catalog w sample_args sample_catalog
                  [PyStr "Bonjour"; PyStr "Au revoir"])
    !! "Project-Id-Version" = Some "demo 1.0".
Proof.
  apply (proj2 C7_project_id_only_when_missing
           (sample_world (Some "sk-test") sample_catalog sample_body (inr sample_reply))
           sample_args sample_catalog "demo 1.0" "done.po").
  - reflexivity.
  - reflexivity.
  - discriminate.
  - rewrite (main_validated _ _ sample_catalog sample_body
               {["translations" := PyList [PyStr "Bonjour"; PyStr "Au revoir"]]}
               [PyStr "Bonjour"; PyStr "Au revoir"]).
    + exact (validated_trace_has_save _ sample_args _ _ _).
    + repeat split; try reflexivity. discriminate.
    + reflexivity.
    + reflexivity.
Defined.





(** C1 (the code departs from it).  The loop does assign translation i
    to entry i (see [lookup_assign] and [msgstr_update_entry]) and does
    clear a ['fuzzy'] flag that occurs once
    ([update_entry_clears_single_fuzzy]).  But [list.remove] removes one
    occurrence only: for an entry whose flags are [fuzzy, fuzzy] the run
    succeeds, the translation is assigned, and the saved entry is still
    flagged ['fuzzy']. *)
Theorem C1_duplicate_fuzzy_not_cleared :
  exit_status (main fuzzy_twice_world sample_args) = 0 ∧
  ∃ out e',
    SaveCatalog "done.po" out ∈ trace (main fuzzy_twice_world sample_args) ∧
    cat_entries out = [e'] ∧
    msgid e' = "Hello" ∧
    msgstr e' = PyStr "Bonjour" ∧
    "fuzzy" ∈ flags e'.
Proof.
  split; [by vm_compute|].
  exists (saved_catalog fuzzy_twice_world sample_args fuzzy_twice_catalog
            [PyStr "Bonjour"]),
         (update_entry (PyStr "Bonjour") (sample_entry "Hello" ["fuzzy"; "fuzzy"])).
  split; [|by repeat split; try apply list_elem_of_here].
  rewrite (main_validated fuzzy_twice_world sample_args fuzzy_twice_catalog
             short_body {["translations" := PyList [PyStr "Bonjour"]]}
             [PyStr "Bonjour"]).
  - exact (validated_trace_has_save _ sample_args _ _ _).
  - repeat split; try reflexivity. discriminate.
  - reflexivity.
  - reflexivity.
Qed.

(** C4 (the code departs from it).  A body that [json.loads] rejects, or
    that is an object without a ['translations'] list, is reported with
    the raw body ([main_undecodable], [main_missing_field]).  But a body
    that is valid JSON and not a container lacks the field too, and for
    it the membership test raises [TypeError], which escapes the inner
    handler: for the body [null] the run ends with status 1 and the raw
    body is not printed. *)
Theorem C4_null_body_not_reported :
  responded null_world sample_args sample_catalog "null" ∧
  json_loads null_world "null" = inr PyNone ∧
  exit_status (main null_world sample_args) = 1 ∧
  last (trace (main null_world sample_args))
  = Some (Stderr "An unexpected error occurred: argument of type 'NoneType' is not iterable") ∧
  Stderr "null" ∉ trace (main null_world sample_args).
Proof.
  assert (answered null_world sample_args sample_catalog "null" PyNone) as Ha.
  { repeat split; try reflexivity. discriminate. }
  split; [apply Ha|]. split; [reflexivity|].
  rewrite (main_not_a_container null_world sample_args sample_catalog "null"
             PyNone Ha eq_refl).
  split; [reflexivity|]. split; [reflexivity|].
  unfold trace, request_trace. cbn. intros Hin.
  trace_mem Hin; by vm_compute in Hin.
Qed.


(** * Further properties of the script *)

(** ** The header update *)

Section header_update.
Implicit Types (md : gmap string string) (now model lang k : string).

(** The header after the update, key by key. *)
Lemma update_metadata_lookup now model lang md k :
  update_metadata now model lang md !! k
  = if decide (k = "Project-Id-Version") then
      Some (match md !! "Project-Id-Version" with
            | Some v => if str_falsy v then "koreader-assistant" else v
            | None => "koreader-assistant"
            end)
    else if decide (k = "Language") then Some lang
    else if decide (k = "Language-Team") then Some (LANG_MAP_get lang)
    else if decide (k = "Last-Translator") then
      Some ("AI Translator (" +:+ model +:+ ")")
    else if decide (k = "PO-Revision-Date") then Some now
    else md !! k.
Proof.
  repeat case_decide; subst.
  - apply update_metadata_project_id.
  - apply update_metadata_language.
  - apply update_metadata_language_team.
  - unfold update_metadata.
    match goal with |- (if ?c then _ else _) !! _ = _ => destruct c end;
      rewrite ?lookup_insert_ne by done; apply lookup_insert_eq.
  - unfold update_metadata.
    match goal with |- (if ?c then _ else _) !! _ = _ => destruct c end;
      rewrite ?lookup_insert_ne by done; apply lookup_insert_eq.
  - unfold update_metadata.
    match goal with |- (if ?c then _ else _) !! _ = _ => destruct c end;
      by rewrite !lookup_insert_ne by done.
Qed.

(** After an update the project identifier is never empty. *)
Lemma update_metadata_project_id_set now model lang md :
  ∃ v, update_metadata now model lang md !! "Project-Id-Version" = Some v ∧
       str_falsy v = false.
Proof.
  rewrite update_metadata_project_id.
  destruct (md !! "Project-Id-Version") as [v|]; [|by eexists].
  destruct (str_falsy v) eqn:Hv; by eexists.
Qed.
End header_update.

(** ** How runs end and what they touch

    A second case analysis over the answers of the world, this time down
    to the clock and the save, so that every trace is explicit. *)

Ltac next_answer_all :=
  first
    [ next_answer
    | match goal with
      | |- context [lift (now_str ?w)] => destruct (now_str w) as [?|?] eqn:?
      | |- context [check (save ?w ?p ?c)] => destruct (save w p c) eqn:?
      end; cbn ].

Lemma main_endings (w : World) (args : Args) :
  match (main w args).2 with
  | inr _ => True
  | inl (SysExit n) =>
      (n = 0 ∧ last (trace (main w args)) = Some (Truncate (output_file args))) ∨
      (n = 1 ∧ ∃ line, last (trace (main w args)) = Some (Stderr line))
  | inl (Raised e) =>
      diagnostics (trace (main w args)) = [] ∧
      ((pofile w (input_file args) = inl e ∧ is_OSError e = false) ∨
       (∃ cat, pofile w (input_file args) = inr cat ∧ cat_entries cat = [] ∧
               open_w w (output_file args) = Some e))
  end.
Proof.
  unfold main, trace.
  repeat next_answer_all.
  all: cbn; try done.
  all: by eauto 10.
Qed.

(** The effects of every run other than printing are, in this order, the
    read of the input file, the construction of the client, one request
    and one save to the output path, or the read followed by the
    truncation of the output path; a run may stop after any of them. *)
Lemma main_io_order (w : World) (args : Args) :
  io_events (trace (main w args)) = [] ∨
  io_events (trace (main w args)) = [ReadCatalog (input_file args)] ∨
  io_events (trace (main w args))
  = [ReadCatalog (input_file args); Truncate (output_file args)] ∨
  ∃ cat,
    ready w args cat ∧
    let new := NewClient (default "" (getenv w "OPENAI_API_KEY"))
                         (getenv w "OPENAI_BASE_URL") in
    let ask := ChatCompletion (request_for w args cat) in
    (io_events (trace (main w args)) = [ReadCatalog (input_file args); new] ∨
     io_events (trace (main w args)) = [ReadCatalog (input_file args); new; ask] ∨
     ∃ out, io_events (trace (main w args))
            = [ReadCatalog (input_file args); new; ask;
               SaveCatalog (output_file args) out]).
Proof.
  unfold main, trace, ready.
  repeat next_answer_all.
  all: rewrite ?length_fmap, ?deref_seq in *; unfold request_for; cbn.
  all: try (by left); try (by right; left); try (by right; right; left).
  all: right; right; right; eexists; (split; [by eauto|]).
  all: try (by left); try (by right; left); by (right; right; eexists).
Qed.

(** ** Failure paths, one by one *)

Ltac run_to_client Hk Hpo Hne :=
  unfold main; rewrite Hk, Hpo; cbn;
  rewrite seq_length_nil, bool_decide_eq_false_2 by done; cbn;
  rewrite deref_seq, length_fmap.

Ltac run_to_reply Hk Hpo Hne Hcl Hcr :=
  run_to_client Hk Hpo Hne; rewrite Hcl; cbn;
  unfold request_for in Hcr; rewrite Hcr; cbn.

Section failures.
Variables (w : World) (args : Args).

Lemma main_unreadable e :
  falsy (getenv w "OPENAI_API_KEY") = false →
  pofile w (input_file args) = inl e →
  main w args
  = ([ Stdout ("Starting translation for " +:+ language args +:+ " (" +:+
               LANG_MAP_get (language args) +:+ ") using model " +:+
               default DEFAULT_MODEL (getenv w "OPENAI_MODEL") +:+ ".");
       ReadCatalog (input_file args) ] ++
     (if is_OSError e then
        [Stderr ("Error: Cannot read input file '" +:+ input_file args +:+
                 "': " +:+ exn_str e)]
      else []),
     if is_OSError e then inl (SysExit 1) else inl (Raised e)).
Proof.
  intros Hk Hpo. unfold main. rewrite Hk, Hpo. cbn.
  by destruct (is_OSError e).
Qed.

Lemma main_client_failure cat e :
  ready w args cat →
  new_client w (default "" (getenv w "OPENAI_API_KEY"))
             (getenv w "OPENAI_BASE_URL") = Some e →
  main w args
  = (client_trace w args cat ++ [Stderr (transport_failure_line e)],
     inl (SysExit 1)).
Proof.
  intros (Hk & Hpo & Hne) Hcl. run_to_client Hk Hpo Hne. rewrite Hcl. cbn.
  unfold transport_failure_line. by destruct (is_APIError e).
Qed.

Lemma main_request_failure cat e :
  ready w args cat →
  new_client w (default "" (getenv w "OPENAI_API_KEY"))
             (getenv w "OPENAI_BASE_URL") = None →
  create w (request_for w args cat) = inl e →
  main w args
  = (request_trace w args cat ++ [Stderr (transport_failure_line e)],
     inl (SysExit 1)).
Proof.
  intros (Hk & Hpo & Hne) Hcl Hcr. run_to_reply Hk Hpo Hne Hcl Hcr.
  unfold transport_failure_line. by destruct (is_APIError e).
Qed.

Lemma main_no_content cat :
  ready w args cat →
  new_client w (default "" (getenv w "OPENAI_API_KEY"))
             (getenv w "OPENAI_BASE_URL") = None →
  create w (request_for w args cat) = inr None →
  main w args
  = (request_trace w args cat ++
     [Stderr ("An unexpected error occurred: " +:+ interp_str w LoadsNotText)],
     inl (SysExit 1)).
Proof.
  intros (Hk & Hpo & Hne) Hcl Hcr. by run_to_reply Hk Hpo Hne Hcl Hcr.
Qed.

Lemma main_bare_array cat body l :
  answered w args cat body (PyList l) →
  existsb (str_eq_val "translations") l = false →
  main w args
  = (request_trace w args cat ++ parse_failure_trace missing_translations body,
     inl (SysExit 1)).
Proof.
  intros [(Hk & Hpo & Hne & Hcl & Hcr) Hjs] Hl.
  run_to_reply Hk Hpo Hne Hcl Hcr. rewrite Hjs. cbn. by rewrite Hl.
Qed.
End failures.

(** ** Properties of every run *)



(** X3. The only exceptions that escape [main] are a failure of
    [polib.pofile] that is not an [OSError] and a failure to open the
    output file for an empty catalog; in both cases the script itself
    has printed nothing on the error stream. *)
Theorem X3_escaping_exceptions (w : World) (args : Args) (e : PyExn) :
  (main w args).2 = inl (Raised e) →
  diagnostics (trace (main w args)) = [] ∧
  ((pofile w (input_file args) = inl e ∧ is_OSError e = false) ∨
   (∃ cat, pofile w (input_file args) = inr cat ∧ cat_entries cat = [] ∧
           open_w w (output_file args) = Some e)).
Proof.
  intros Hend. pose proof (main_endings w args) as H.
  by rewrite Hend in H.
Qed.

Lemma X3_witness :
  diagnostics (trace (main undecodable_file_world sample_args)) = [] ∧
  ((pofile undecodable_file_world (input_file sample_args)
    = inl (mkExn ValueError "'utf-8' codec can't decode byte 0xff in position 0") ∧
    is_OSError (mkExn ValueError "'utf-8' codec can't decode byte 0xff in position 0")
    = false) ∨
   (∃ cat, pofile undecodable_file_world (input_file sample_args) = inr cat ∧
           cat_entries cat = [] ∧
           open_w undecodable_file_world (output_file sample_args)
           = Some (mkExn ValueError "'utf-8' codec can't decode byte 0xff in position 0"))).
Proof.
  apply (X3_escaping_exceptions undecodable_file_world sample_args). reflexivity.
Defined.

(** X4. Every run that ends through [sys.exit(1)] has a line on the error
    stream as its last effect. *)
Theorem X4_fatal_exit_after_diagnostic (w : World) (args : Args) :
  (main w args).2 = inl (SysExit 1) →
  ∃ line, last (trace (main w args)) = Some (Stderr line).
Proof.
  intros Hend. pose proof (main_endings w args) as H.
  rewrite Hend in H. by destruct H as [[? _]|[_ ?]].
Qed.

Lemma X4_witness :
  ∃ line,
    last (trace (main (sample_world None sample_catalog sample_body (inr sample_reply))
                      sample_args))
    = Some (Stderr line).
Proof.
  apply (X4_fatal_exit_after_diagnostic
           (sample_world None sample_catalog sample_body (inr sample_reply))
           sample_args).
  reflexivity.
Defined.

(** ** Failures before the response is parsed *)

(** X5. When [polib.pofile] raises an [OSError] (a missing or unreadable
    file), the run ends with status 1 after one diagnostic that names the
    input file and carries the exception's text; it reads and touches
    nothing else. *)
Theorem X5_unreadable_input (w : World) (args : Args) (e : PyExn) :
  falsy (getenv w "OPENAI_API_KEY") = false →
  pofile w (input_file args) = inl e →
  is_OSError e = true →
  exit_status (main w args) = 1 ∧
  diagnostics (trace (main w args))
  = ["Error: Cannot read input file '" +:+ input_file args +:+ "': " +:+
     exn_str e] ∧
  io_events (trace (main w args)) = [ReadCatalog (input_file args)].
Proof.
  intros Hk Hpo He. rewrite (main_unreadable w args e Hk Hpo), He. done.
Qed.

Lemma X5_witness :
  exit_status (main unreadable_world sample_args) = 1 ∧
  diagnostics (trace (main unreadable_world sample_args))
  = ["Error: Cannot read input file 'todo.po': [Errno 2] No such file or directory: 'todo.po'"] ∧
  io_events (trace (main unreadable_world sample_args)) = [ReadCatalog "todo.po"].
Proof.
  apply (X5_unreadable_input unreadable_world sample_args
           (mkExn OSError "[Errno 2] No such file or directory: 'todo.po'"));
    reflexivity.
Defined.

(** X6. When the construction of the client fails, no request is sent:
    the run ends with status 1 after one diagnostic, worded for an
    [APIError] or for any other exception, and writes nothing. *)
Theorem X6_client_failure (w : World) (args : Args) (cat : Catalog) (e : PyExn) :
  ready w args cat →
  new_client w (default "" (getenv w "OPENAI_API_KEY"))
             (getenv w "OPENAI_BASE_URL") = Some e →
  exit_status (main w args) = 1 ∧
  diagnostics (trace (main w args))
  = [if is_APIError e then "Error: An API error occurred: " +:+ exn_str e
     else "An unexpected error occurred: " +:+ exn_str e] ∧
  io_events (trace (main w args))
  = [ReadCatalog (input_file args);
     NewClient (default "" (getenv w "OPENAI_API_KEY")) (getenv w "OPENAI_BASE_URL")].
Proof.
  intros Hr Hcl. rewrite (main_client_failure w args cat e Hr Hcl). done.
Qed.

Lemma X6_witness :
  exit_status (main no_client_world sample_args) = 1 ∧
  diagnostics (trace (main no_client_world sample_args))
  = ["An unexpected error occurred: Invalid URL"] ∧
  io_events (trace (main no_client_world sample_args))
  = [ReadCatalog "todo.po"; NewClient "sk-test" None].
Proof.
  apply (X6_client_failure no_client_world sample_args sample_catalog
           (mkExn OtherException "Invalid URL")).
  - repeat split; try reflexivity. discriminate.
  - reflexivity.
Defined.

(** X7. When the API call raises, the run ends with status 1 after one
    diagnostic: ['Error: An API error occurred: ...'] for an [APIError],
    ['An unexpected error occurred: ...'] for anything else.  The request
    was sent once and nothing is written. *)
Theorem X7_request_failure (w : World) (args : Args) (cat : Catalog) (e : PyExn) :
  ready w args cat →
  new_client w (default "" (getenv w "OPENAI_API_KEY"))
             (getenv w "OPENAI_BASE_URL") = None →
  create w (request_for w args cat) = inl e →
  exit_status (main w args) = 1 ∧
  diagnostics (trace (main w args))
  = [if is_APIError e then "Error: An API error occurred: " +:+ exn_str e
     else "An unexpected error occurred: " +:+ exn_str e] ∧
  io_events (trace (main w args))
  = [ReadCatalog (input_file args);
     NewClient (default "" (getenv w "OPENAI_API_KEY")) (getenv w "OPENAI_BASE_URL");
     ChatCompletion (request_for w args cat)].
Proof.
  intros Hr Hcl Hcr. rewrite (main_request_failure w args cat e Hr Hcl Hcr). done.
Qed.

Lemma X7_witness :
  exit_status (main api_down_world sample_args) = 1 ∧
  diagnostics (trace (main api_down_world sample_args))
  = ["Error: An API error occurred: Connection error."] ∧
  io_events (trace (main api_down_world sample_args))
  = [ReadCatalog "todo.po"; NewClient "sk-test" None;
     ChatCompletion (request_for api_down_world sample_args sample_catalog)].
Proof.
  apply (X7_request_failure api_down_world sample_args sample_catalog
           (mkExn APIError "Connection error.")).
  - repeat split; try reflexivity. discriminate.
  - reflexivity.
  - reflexivity.
Defined.

(** X8. When the message of the response has no content ([None]),
    [json.loads] raises a [TypeError], which only the outer handler
    catches: the run ends with status 1 after the single line
    ['An unexpected error occurred: ...'], and nothing is written. *)
Theorem X8_no_content (w : World) (args : Args) (cat : Catalog) :
  ready w args cat →
  new_client w (default "" (getenv w "OPENAI_API_KEY"))
             (getenv w "OPENAI_BASE_URL") = None →
  create w (request_for w args cat) = inr None →
  exit_status (main w args) = 1 ∧
  diagnostics (trace (main w args))
  = ["An unexpected error occurred: " +:+ interp_str w LoadsNotText] ∧
  saved_files (trace (main w args)) = [].
Proof.
  intros Hr Hcl Hcr. rewrite (main_no_content w args cat Hr Hcl Hcr). done.
Qed.

Lemma X8_witness :
  exit_status (main no_content_world sample_args) = 1 ∧
  diagnostics (trace (main no_content_world sample_args))
  = ["An unexpected error occurred: " +:+
     "the JSON object must be str, bytes or bytearray, not NoneType"] ∧
  saved_files (trace (main no_content_world sample_args)) = [].
Proof.
  apply (X8_no_content no_content_world sample_args sample_catalog).
  - repeat split; try reflexivity. discriminate.
  - reflexivity.
  - reflexivity.
Defined.

(** ** Malformed responses that are reported with their body *)

(** X9. When [json.loads] rejects the body ([JSONDecodeError], or any
    other [ValueError]), the run ends with status 1 after four
    diagnostics, the second carrying the exception's text and the last
    being the raw body; nothing is written. *)
Theorem X9_undecodable_body (w : World) (args : Args) (cat : Catalog)
    (body : string) (e : PyExn) :
  responded w args cat body →
  json_loads w body = inl e →
  is_ValueError e = true →
  exit_status (main w args) = 1 ∧
  diagnostics (trace (main w args))
  = ["Error: Could not decode or parse the AI's response.";
     "Details: " +:+ exn_str e;
     "--- Raw AI Response ---";
     body] ∧
  saved_files (trace (main w args)) = [].
Proof.
  intros Hr Hjs He. rewrite (main_undecodable w args cat body e Hr Hjs He). done.
Qed.

Lemma X9_witness :
  exit_status (main apology_world sample_args) = 1 ∧
  diagnostics (trace (main apology_world sample_args))
  = ["Error: Could not decode or parse the AI's response.";
     "Details: Expecting value: line 1 column 1 (char 0)";
     "--- Raw AI Response ---";
     "Sorry, I cannot help with that."] ∧
  saved_files (trace (main apology_world sample_args)) = [].
Proof.
  apply (X9_undecodable_body apology_world sample_args sample_catalog
           "Sorry, I cannot help with that."
           (mkExn JSONDecodeError "Expecting value: line 1 column 1 (char 0)")).
  - repeat split; try reflexivity. discriminate.
  - reflexivity.
  - reflexivity.
Defined.

(** X10. When the body is a JSON object in which ['translations'] is
    missing or is not a list, the script raises its own [ValueError]: the
    run ends with status 1 after four diagnostics, the second naming the
    missing key and the last being the raw body; nothing is written. *)
Theorem X10_missing_translations (w : World) (args : Args) (cat : Catalog)
    (body : string) (d : gmap string pyval) :
  answered w args cat body (PyDict d) →
  (d !! "translations" = None ∨
   ∃ v, d !! "translations" = Some v ∧ as_list v = None) →
  exit_status (main w args) = 1 ∧
  diagnostics (trace (main w args))
  = ["Error: Could not decode or parse the AI's response.";
     "Details: AI response JSON is missing 'translations' key or it's not a list.";
     "--- Raw AI Response ---";
     body] ∧
  saved_files (trace (main w args)) = [].
Proof.
  intros Ha Hd. rewrite (main_missing_field w args cat body d Ha); [done|].
  by destruct Hd as [->|(v & -> & ?)].
Qed.

Lemma X10_witness :
  exit_status (main wrong_key_world sample_args) = 1 ∧
  diagnostics (trace (main wrong_key_world sample_args))
  = ["Error: Could not decode or parse the AI's response.";
     "Details: AI response JSON is missing 'translations' key or it's not a list.";
     "--- Raw AI Response ---";
     "{" +:+ jstr "result" +:+ ": []}"] ∧
  saved_files (trace (main wrong_key_world sample_args)) = [].
Proof.
  apply (X10_missing_translations wrong_key_world sample_args sample_catalog
           ("{" +:+ jstr "result" +:+ ": []}") {["result" := PyList []]}).
  - repeat split; try reflexivity. discriminate.
  - left. reflexivity.
Defined.

(** X11. When the body is a bare JSON array (the translations without
    the enclosing object) that does not contain the string
    ['translations'], it is rejected like an object without the key, with
    the raw body printed last; nothing is written. *)
Theorem X11_bare_array_rejected (w : World) (args : Args) (cat : Catalog)
    (body : string) (l : list pyval) :
  answered w args cat body (PyList l) →
  PyStr "translations" ∉ l →
  exit_status (main w args) = 1 ∧
  diagnostics (trace (main w args))
  = ["Error: Could not decode or parse the AI's response.";
     "Details: AI response JSON is missing 'translations' key or it's not a list.";
     "--- Raw AI Response ---";
     body] ∧
  saved_files (trace (main w args)) = [].
Proof.
  intros Ha Hl. rewrite (main_bare_array w args cat body l Ha); [done|].
  apply not_true_iff_false. rewrite existsb_exists. intros (v & Hv & Heq).
  destruct v; try discriminate Heq. cbn in Heq.
  apply bool_decide_eq_true in Heq as <-. by apply list_elem_of_In in Hv.
Qed.

Lemma X11_witness :
  exit_status (main bare_array_world sample_args) = 1 ∧
  diagnostics (trace (main bare_array_world sample_args))
  = ["Error: Could not decode or parse the AI's response.";
     "Details: AI response JSON is missing 'translations' key or it's not a list.";
     "--- Raw AI Response ---";
     "[" +:+ jstr "Bonjour" +:+ ", " +:+ jstr "Au revoir" +:+ "]"] ∧
  saved_files (trace (main bare_array_world sample_args)) = [].
Proof.
  apply (X11_bare_array_rejected bare_array_world sample_args sample_catalog
           ("[" +:+ jstr "Bonjour" +:+ ", " +:+ jstr "Au revoir" +:+ "]")
           [PyStr "Bonjour"; PyStr "Au revoir"]).
  - repeat split; try reflexivity. discriminate.
  - intros Hin. trace_mem Hin.
Defined.

(** ** After validation *)

(** X12. When [po_file.save] raises, the run ends with status 1 and its
    last effect is the diagnostic naming the output file and carrying the
    exception's text; the save was attempted once, after the entries and
    the header were updated. *)
Theorem X12_save_failure (w : World) (args : Args) (cat : Catalog)
    (body : string) (d : gmap string pyval) (ts : list pyval) (e : PyExn) :
  answered w args cat body (PyDict d) →
  d !! "translations" = Some (PyList ts) →
  length ts = length (cat_entries cat) →
  save w (output_file args) (saved_catalog w args cat ts) = Some e →
  exit_status (main w args) = 1 ∧
  last (trace (main w args))
  = Some (Stderr ("Error: Failed to save the output file '" +:+
                  output_file args +:+ "': " +:+ exn_str e)) ∧
  saved_files (trace (main w args))
  = [(output_file args, saved_catalog w args cat ts)].
Proof.
  intros Ha Hd Hlen Hsave.
  rewrite (main_validated w args cat body d ts Ha Hd Hlen), Hsave.
  unfold exit_status, trace, request_trace, metadata_trace. cbn.
  by destruct (now_str w).
Qed.

Lemma X12_witness :
  exit_status (main disk_full_world sample_args) = 1 ∧
  last (trace (main disk_full_world sample_args))
  = Some (Stderr ("Error: Failed to save the output file 'done.po': " +:+
                  "[Errno 28] No space left on device")) ∧
  saved_files (trace (main disk_full_world sample_args))
  = [("done.po", saved_catalog disk_full_world sample_args sample_catalog
                   [PyStr "Bonjour"; PyStr "Au revoir"])].
Proof.
  apply (X12_save_failure disk_full_world sample_args sample_catalog sample_body
           {["translations" := PyList [PyStr "Bonjour"; PyStr "Au revoir"]]}
           [PyStr "Bonjour"; PyStr "Au revoir"]
           (mkExn OSError "[Errno 28] No space left on device")).
  - repeat split; try reflexivity. discriminate.
  - reflexivity.
  - reflexivity.
  - reflexivity.
Defined.

(** X13. A failure while computing the time stamp is not fatal: the run
    prints a warning, leaves the whole header as it was loaded, still
    saves the translated entries, and ends as the save does. *)
Theorem X13_clock_failure_is_not_fatal (w : World) (args : Args) (cat : Catalog)
    (body : string) (d : gmap string pyval) (ts : list pyval) (e : PyExn) :
  answered w args cat body (PyDict d) →
  d !! "translations" = Some (PyList ts) →
  length ts = length (cat_entries cat) →
  now_str w = inl e →
  let out := mkCatalog (assign (cat_entries cat) ts) (cat_metadata cat) in
  saved_files (trace (main w args)) = [(output_file args, out)] ∧
  Stderr ("Warning: Could not update PO metadata. Error: " +:+ exn_str e)
    ∈ trace (main w args) ∧
  exit_status (main w args)
  = match save w (output_file args) out with None => 0 | Some _ => 1 end.
Proof.
  intros Ha Hd Hlen Hnow out.
  rewrite (main_validated w args cat body d ts Ha Hd Hlen).
  assert (saved_catalog w args cat ts = out) as ->.
  { unfold saved_catalog, final_metadata, out. by rewrite Hnow, saved_entries. }
  unfold exit_status, trace, request_trace, metadata_trace. rewrite Hnow. cbn.
  destruct (save w (output_file args) out); cbn;
    (split; [done|split; [trace_in|done]]).
Qed.

Lemma X13_witness :
  let out := mkCatalog (assign (cat_entries sample_catalog)
                          [PyStr "Bonjour"; PyStr "Au revoir"])
                       (cat_metadata sample_catalog) in
  saved_files (trace (main no_clock_world sample_args)) = [("done.po", out)] ∧
  Stderr ("Warning: Could not update PO metadata. Error: " +:+
          "timestamp out of range for platform time_t")
    ∈ trace (main no_clock_world sample_args) ∧
  exit_status (main no_clock_world sample_args)
  = match save no_clock_world "done.po" out with None => 0 | Some _ => 1 end.
Proof.
  apply (X13_clock_failure_is_not_fatal no_clock_world sample_args sample_catalog
           sample_body
           {["translations" := PyList [PyStr "Bonjour"; PyStr "Au revoir"]]}
           [PyStr "Bonjour"; PyStr "Au revoir"]
           (mkExn OtherException "timestamp out of range for platform time_t")).
  - repeat split; try reflexivity. discriminate.
  - reflexivity.
  - reflexivity.
  - reflexivity.
Defined.

(** The loop removes one occurrence of a flag and keeps the others in
    their order. *)
Lemma py_remove_others x l :
  filter (λ y, y ≠ x) (py_remove x l) = filter (λ y, y ≠ x) l.
Proof.
  induction l as [|z l IH]; [done|]. cbn [py_remove].
  case_bool_decide as Hz; subst.
  - by rewrite filter_cons_False by (by intros ?).
  - by rewrite !filter_cons, IH.
Qed.

Lemma py_remove_count x l :
  count_flag x (py_remove x l) = pred (count_flag x l).
Proof.
  unfold count_flag. induction l as [|z l IH]; [done|]. cbn [py_remove].
  case_bool_decide as Hz; subst.
  - by rewrite filter_cons_True.
  - rewrite !filter_cons_False by done. apply IH.
Qed.

Lemma count_flag_zero x l : count_flag x l = 0 → x ∉ l.
Proof.
  unfold count_flag. intros Hc Hin.
  assert (x ∈ filter (λ y, y = x) l) as Hf by (by apply list_elem_of_filter).
  destruct (filter (λ y, y = x) l); [by apply elem_of_nil in Hf|discriminate].
Qed.

(** X14. In the catalog a validated run saves, the flags of entry i are
    the flags of the loaded entry with exactly one occurrence of
    ['fuzzy'] removed, if there was one: the other flags are the same in
    the same order, and the number of ['fuzzy'] flags is one less.  So an
    entry flagged ['fuzzy'] at most once is saved without the flag. *)
Theorem X14_one_fuzzy_flag_removed (w : World) (args : Args) (cat : Catalog)
    (body : string) (d : gmap string pyval) (ts : list pyval)
    (i : nat) (e : POEntry) :
  answered w args cat body (PyDict d) →
  d !! "translations" = Some (PyList ts) →
  length ts = length (cat_entries cat) →
  cat_entries cat !! i = Some e →
  ∃ out e',
    saved_files (trace (main w args)) = [(output_file args, out)] ∧
    cat_entries out !! i = Some e' ∧
    filter (λ f, f ≠ "fuzzy") (flags e') = filter (λ f, f ≠ "fuzzy") (flags e) ∧
    count_flag "fuzzy" (flags e') = pred (count_flag "fuzzy" (flags e)) ∧
    ((count_flag "fuzzy" (flags e) ≤ 1)%nat → "fuzzy" ∉ flags e').
Proof.
  intros Ha Hd Hlen He.
  destruct (lookup_lt_is_Some_2 ts i) as [t Ht].
  { rewrite Hlen. by eapply lookup_lt_Some. }
  exists (saved_catalog w args cat ts), (update_entry t e).
  rewrite (main_validated w args cat body d ts Ha Hd Hlen).
  split; [|split; [|split; [|split]]].
  - unfold trace, request_trace, metadata_trace. cbn.
    by destruct (now_str w), (save w _ _).
  - rewrite saved_catalog_entries. by apply lookup_assign.
  - rewrite flags_update_entry. apply py_remove_others.
  - rewrite flags_update_entry. apply py_remove_count.
  - intros Hc. apply count_flag_zero.
    rewrite flags_update_entry, py_remove_count. lia.
Qed.

Lemma X14_witness :
  ∃ out e',
    saved_files (trace (main example_world sample_args)) = [("done.po", out)] ∧
    cat_entries out !! 0 = Some e' ∧
    filter (λ f, f ≠ "fuzzy") (flags e') = [] ∧
    count_flag "fuzzy" (flags e') = 0 ∧
    ((1 ≤ 1)%nat → "fuzzy" ∉ flags e').
Proof.
  apply (X14_one_fuzzy_flag_removed example_world sample_args sample_catalog
           sample_body
           {["translations" := PyList [PyStr "Bonjour"; PyStr "Au revoir"]]}
           [PyStr "Bonjour"; PyStr "Au revoir"] 0 (sample_entry "Hello" ["fuzzy"])).
  - repeat split; try reflexivity. discriminate.
  - reflexivity.
  - reflexivity.
  - reflexivity.
Defined.

(** X15. Positions correspond end to end: the user message of the request
    is [json.dumps] of the msgids in catalog order, and entry i of the
    saved catalog has source text i of that list as its msgid and
    element i of the response as its msgstr. *)
Theorem X15_positions_correspond (w : World) (args : Args) (cat : Catalog)
    (body : string) (d : gmap string pyval) (ts : list pyval) :
  answered w args cat body (PyDict d) →
  d !! "translations" = Some (PyList ts) →
  length ts = length (cat_entries cat) →
  ∃ source_texts out,
    ChatCompletion (request_for w args cat) ∈ trace (main w args) ∧
    req_user (request_for w args cat) = json_dumps w source_texts ∧
    saved_files (trace (main w args)) = [(output_file args, out)] ∧
    length source_texts = length (cat_entries out) ∧
    ∀ i s t, source_texts !! i = Some s → ts !! i = Some t →
      ∃ e', cat_entries out !! i = Some e' ∧ msgid e' = s ∧ msgstr e' = t.
Proof.
  intros Ha Hd Hlen.
  exists (msgid <$> cat_entries cat), (saved_catalog w args cat ts).
  rewrite (main_validated w args cat body d ts Ha Hd Hlen).
  split; [|split; [done|split; [|split]]].
  - unfold trace, request_trace. cbn [fst]. rewrite elem_of_app. left. trace_in.
  - unfold trace, request_trace, metadata_trace. cbn.
    by destruct (now_str w), (save w _ _).
  - by rewrite saved_catalog_entries, length_assign, length_fmap.
  - intros i s t Hs Ht. rewrite list_lookup_fmap in Hs.
    destruct (cat_entries cat !! i) as [e|] eqn:He; [|done].
    injection Hs as <-. exists (update_entry t e).
    rewrite saved_catalog_entries. split; [by apply lookup_assign|].
    split; [apply update_entry_frame|apply msgstr_update_entry].
Qed.

Lemma X15_witness :
  ∃ source_texts out,
    ChatCompletion (request_for example_world sample_args sample_catalog)
      ∈ trace (main example_world sample_args) ∧
    req_user (request_for example_world sample_args sample_catalog)
    = json_dumps example_world source_texts ∧
    saved_files (trace (main example_world sample_args)) = [("done.po", out)] ∧
    length source_texts = length (cat_entries out) ∧
    ∀ i s t, source_texts !! i = Some s →
             [PyStr "Bonjour"; PyStr "Au revoir"] !! i = Some t →
      ∃ e', cat_entries out !! i = Some e' ∧ msgid e' = s ∧ msgstr e' = t.
Proof.
  apply (X15_positions_correspond example_world sample_args sample_catalog
           sample_body
           {["translations" := PyList [PyStr "Bonjour"; PyStr "Au revoir"]]}
           [PyStr "Bonjour"; PyStr "Au revoir"]).
  - repeat split; try reflexivity. discriminate.
  - reflexivity.
  - reflexivity.
Defined.

(** ** The header of a saved catalog *)

(** X16. In every catalog a run saves after the time stamp was computed,
    the revision date is that time stamp, the translator is
    ['AI Translator (<model>)'] with the model in use, the language is
    the requested code, and every header key other than the five the
    script writes has the value it was loaded with. *)
Theorem X16_saved_header (w : World) (args : Args) (cat : Catalog)
    (p : string) (out : Catalog) (now : string) :
  pofile w (input_file args) = inr cat →
  now_str w = inr now →
  SaveCatalog p out ∈ trace (main w args) →
  cat_metadata out !! "PO-Revision-Date" = Some now ∧
  cat_metadata out !! "Last-Translator"
  = Some ("AI Translator (" +:+
          default "gpt-5-nano" (getenv w "OPENAI_MODEL") +:+ ")") ∧
  cat_metadata out !! "Language" = Some (language args) ∧
  ∀ k, k ∉ ["PO-Revision-Date"; "Last-Translator"; "Language-Team";
            "Language"; "Project-Id-Version"] →
       cat_metadata out !! k = cat_metadata cat !! k.
Proof.
  intros Hpo Hnow Hin.
  apply save_event_inv in Hin as (cat' & body & d & ts & Ha & _ & _ & _ & ->).
  assert (cat' = cat) as ->.
  { destruct Ha as [(_ & Hpo' & _) _]. congruence. }
  unfold saved_catalog, final_metadata. cbn. rewrite Hnow.
  split; [|split; [|split]]; try by rewrite update_metadata_lookup.
  intros k Hk. rewrite update_metadata_lookup.
  repeat case_decide; subst; try done; exfalso; apply Hk; trace_in.
Qed.

Lemma X16_witness :
  let out := saved_catalog example_world sample_args sample_catalog
               [PyStr "Bonjour"; PyStr "Au revoir"] in
  cat_metadata out !! "PO-Revision-Date" = Some "2025-01-01 12:00+0000" ∧
  cat_metadata out !! "Last-Translator" = Some "AI Translator (gpt-5-nano)" ∧
  cat_metadata out !! "Language" = Some "fr" ∧
  ∀ k, k ∉ ["PO-Revision-Date"; "Last-Translator"; "Language-Team";
            "Language"; "Project-Id-Version"] →
       cat_metadata out !! k = cat_metadata sample_catalog !! k.
Proof.
  apply (X16_saved_header example_world sample_args sample_catalog "done.po"
           (saved_catalog example_world sample_args sample_catalog
              [PyStr "Bonjour"; PyStr "Au revoir"])
           "2025-01-01 12:00+0000").
  - reflexivity.
  - reflexivity.
  - rewrite (main_validated example_world sample_args sample_catalog sample_body
               {["translations" := PyList [PyStr "Bonjour"; PyStr "Au revoir"]]}
               [PyStr "Bonjour"; PyStr "Au revoir"]).
    + exact (validated_trace_has_save _ sample_args _ _ _).
    + repeat split; try reflexivity. discriminate.
    + reflexivity.
    + reflexivity.
Defined.

(** X17. Updating a header that was already updated gives the same
    header as updating the original one: the four fields are
    overwritten, and the project identifier chosen by the first update
    is kept by the second. *)
Theorem X17_header_update_twice (now1 model1 lang1 now2 model2 lang2 : string)
    (md : gmap string string) :
  update_metadata now2 model2 lang2 (update_metadata now1 model1 lang1 md)
  = update_metadata now2 model2 lang2 md.
Proof.
  apply map_eq. intros k. rewrite !update_metadata_lookup.
  repeat case_decide; subst; try done.
  destruct (md !! "Project-Id-Version") as [v|]; [|done].
  destruct (str_falsy v) eqn:Hv; [done|by rewrite Hv].
Qed.

(** ** What a run reads, sends and writes *)

Lemma requests_io_events t : requests (io_events t) = requests t.
Proof.
  unfold requests, io_events.
  induction t as [|[] t IH]; cbn; by rewrite ?IH.
Qed.

Lemma read_paths_io_events t : read_paths (io_events t) = read_paths t.
Proof.
  unfold read_paths, io_events.
  induction t as [|[] t IH]; cbn; by rewrite ?IH.
Qed.

Lemma written_paths_io_events t : written_paths (io_events t) = written_paths t.
Proof.
  unfold written_paths, io_events.
  induction t as [|[] t IH]; cbn; by rewrite ?IH.
Qed.

Lemma elem_of_requests req t : ChatCompletion req ∈ t → req ∈ requests t.
Proof.
  intros Hin. apply list_elem_of_omap. by exists (ChatCompletion req).
Qed.

Lemma falsy_false o : falsy o = false → ∃ key, o = Some key ∧ key ≠ "".
Proof.
  destruct o as [key|]; [|done]. intros Hk. exists key. split; [done|].
  by apply bool_decide_eq_false in Hk.
Qed.

(** X18. A request reaches the API only when the credential is set and
    not empty and the catalog was read and is not empty.  It is the only
    request of the run and it carries the credential, the endpoint from
    the environment, the model from the environment or ['gpt-5-nano'],
    [json.dumps] of all the msgids in catalog order, and the JSON-object
    response format. *)
Theorem X18_the_single_request (w : World) (args : Args) (req : ChatRequest) :
  ChatCompletion req ∈ trace (main w args) →
  ∃ key cat,
    getenv w "OPENAI_API_KEY" = Some key ∧ key ≠ "" ∧
    pofile w (input_file args) = inr cat ∧ cat_entries cat ≠ [] ∧
    requests (trace (main w args)) = [req] ∧
    req_api_key req = key ∧
    req_base_url req = getenv w "OPENAI_BASE_URL" ∧
    req_model req = default "gpt-5-nano" (getenv w "OPENAI_MODEL") ∧
    req_user req = json_dumps w (msgid <$> cat_entries cat) ∧
    req_response_format req = "json_object".
Proof.
  intros Hin%elem_of_requests. rewrite <- requests_io_events in *.
  destruct (main_io_order w args)
    as [Hio|[Hio|[Hio|(cat & (Hk & Hpo & Hne) & [Hio|[Hio|[out Hio]]])]]];
    rewrite Hio in *; cbn in Hin; trace_mem Hin; subst req.
  all: destruct (falsy_false _ Hk) as (key & Hkey & Hkne).
  all: exists key, cat; unfold request_for; cbn; by rewrite Hkey.
Qed.

Lemma X18_witness :
  ∃ key cat,
    getenv example_world "OPENAI_API_KEY" = Some key ∧ key ≠ "" ∧
    pofile example_world "todo.po" = inr cat ∧ cat_entries cat ≠ [] ∧
    requests (trace (main example_world sample_args))
    = [request_for example_world sample_args sample_catalog] ∧
    req_api_key (request_for example_world sample_args sample_catalog) = key ∧
    req_base_url (request_for example_world sample_args sample_catalog)
    = getenv example_world "OPENAI_BASE_URL" ∧
    req_model (request_for example_world sample_args sample_catalog)
    = default "gpt-5-nano" (getenv example_world "OPENAI_MODEL") ∧
    req_user (request_for example_world sample_args sample_catalog)
    = json_dumps example_world (msgid <$> cat_entries cat) ∧
    req_response_format (request_for example_world sample_args sample_catalog)
    = "json_object".
Proof.
  apply (X18_the_single_request example_world sample_args
           (request_for example_world sample_args sample_catalog)).
  rewrite (main_validated example_world sample_args sample_catalog sample_body
             {["translations" := PyList [PyStr "Bonjour"; PyStr "Au revoir"]]}
             [PyStr "Bonjour"; PyStr "Au revoir"]).
  - unfold trace, request_trace. cbn [fst]. rewrite elem_of_app. left. trace_in.
  - repeat split; try reflexivity. discriminate.
  - reflexivity.
  - reflexivity.
Defined.

(** X19. A run reads no file but the input file, and reads it at most
    once; it writes no file but the output file, and writes it at most
    once (by truncation or by the save, never both). *)
Theorem X19_files_touched (w : World) (args : Args) :
  (read_paths (trace (main w args)) = [] ∨
   read_paths (trace (main w args)) = [input_file args]) ∧
  (written_paths (trace (main w args)) = [] ∨
   written_paths (trace (main w args)) = [output_file args]).
Proof.
  rewrite <- read_paths_io_events, <- written_paths_io_events.
  destruct (main_io_order w args)
    as [Hio|[Hio|[Hio|(cat & _ & [Hio|[Hio|[out Hio]]])]]];
    rewrite Hio; cbn; auto.
Qed.
